(** * Verification of the interview session pipeline of Diolex

    Shallow embedding of
    - [backend/app/agent/interview_agent.py] ([InterviewAgent]),
    - [backend/app/agent/feedback_agent.py] ([FeedbackAgent.generate_feedback_json]),
    - [backend/app/websockets/ws.py] (the per-connection coordinator),
    - [backend/app/agent/tts_service.py] ([speak], [stop_audio] and the
      playback worker [_play_audio_thread]).

    Python [str] values are modelled as [string] (ASCII), Python [int] as [Z].
    The language-model client and the speech synthesiser are external
    collaborators: they are Section variables (oracles). *)

From Stdlib Require Import String Ascii List Bool ZArith Lia.
Import ListNotations.
Open Scope list_scope.
Open Scope string_scope.

(* ------------------------------------------------------------------ *)
(** ** Python string primitives *)

Module Py.

(** [str.isspace] on one ASCII character: space, \t, \n, \v, \f, \r and the
    separators \x1c .. \x1f. *)
Definition is_space (c : ascii) : bool :=
  let n := nat_of_ascii c in
  orb (Nat.eqb n 32) (orb (andb (Nat.leb 9 n) (Nat.leb n 13))
                          (andb (Nat.leb 28 n) (Nat.leb n 31))).

Fixpoint lstrip (s : string) : string :=
  match s with
  | EmptyString => EmptyString
  | String c r => if is_space c then lstrip r else s
  end.

Definition rstrip (s : string) : string :=
  string_of_list_ascii
    (rev (list_ascii_of_string (lstrip (string_of_list_ascii
       (rev (list_ascii_of_string s)))))).

(** [str.strip()] *)
Definition strip (s : string) : string := lstrip (rstrip s).

(** truthiness of a [str] *)
Definition truthy (s : string) : bool :=
  match s with EmptyString => false | _ => true end.

(** [str.upper()] on ASCII *)
Definition upper_char (c : ascii) : ascii :=
  let n := nat_of_ascii c in
  if andb (Nat.leb 97 n) (Nat.leb n 122) then ascii_of_nat (n - 32) else c.

Fixpoint upper (s : string) : string :=
  match s with
  | EmptyString => EmptyString
  | String c r => String (upper_char c) (upper r)
  end.

(** [sep.join(xs)] *)
Fixpoint join (sep : string) (xs : list string) : string :=
  match xs with
  | [] => ""
  | [x] => x
  | x :: r => x ++ sep ++ join sep r
  end.

(** [xs[i:]] for a Python list, negative [i] counting from the end. *)
Definition slice_from {A} (i : Z) (xs : list A) : list A :=
  if (i <? 0)%Z
  then skipn (Z.to_nat (Z.max 0 (Z.of_nat (length xs) + i))) xs
  else skipn (Z.to_nat i) xs.

Definition nl : string := String (ascii_of_nat 10) EmptyString.

End Py.

Definition two_nl : string := Py.nl ++ Py.nl.

(* ------------------------------------------------------------------ *)
(** ** Transcript entries ([self.history] dictionaries) *)

(** One entry of [self.history]: the keys "role" and "content" are always
    present; "user_code" only on user turns, "timestamp" only on the error
    entries written by the [except] branch. *)
Record Turn := mkTurn {
  role : string;
  content : string;
  user_code : option string;
  timestamp : option string
}.

Definition no_code_sentinel : string := "No code provided yet.".

(** [InterviewAgent.get_formatted_history], on a given [self.history]. *)
Definition format_entry (out : list string) (msg : Turn) : list string :=
  let role := Py.upper (role msg) in
  let content := Py.strip (content msg) in
  if Py.truthy content then
    if String.eqb role "USER" then
      match user_code msg with
      | Some uc =>
          let user_code := Py.strip uc in
          if andb (Py.truthy user_code)
                  (negb (String.eqb user_code no_code_sentinel))
          then app out [role ++ ": " ++ content ++ two_nl ++
                       "User Code Context:" ++ Py.nl ++ user_code]
          else app out [role ++ ": " ++ content]
      | None => app out [role ++ ": " ++ content]
      end
    else app out [role ++ ": " ++ content]
  else out.

Definition get_formatted_history (history : list Turn) : string :=
  match history with
  | [] => ""
  | _ => Py.join two_nl (fold_left format_entry history [])
  end.

(** [InterviewAgent.get_last_n_messages] *)
Definition get_last_n_messages (history : list Turn) (n : Z) : list Turn :=
  if (n <=? Z.of_nat (length history))%Z
  then Py.slice_from (- n) history
  else history.

(* ------------------------------------------------------------------ *)
(** ** [prompt.interview_system_prompt] *)

Definition dq : string := String (ascii_of_nat 34) EmptyString.

(** The template is [interview_system_prompt_head ++ "{problem}" ++
    interview_system_prompt_tail]; its only placeholder is [{problem}]. *)
Definition interview_system_prompt_head : string :=
  Py.join Py.nl [
    "";
    "You are a technical programming interviewer. Guide the candidate through this problem:";
    "";
    ""].

Definition interview_system_prompt_tail : string :=
  Py.join Py.nl [
    "";
    "";
    "STATES & TRANSITIONS:";
    "";
    "1. PRESENT → Output ONLY the core problem statement (1-2 sentences max). No examples, constraints, or follow-up. → Go to CLARIFY.";
    "";
    "2. CLARIFY → Answer only what's asked. If they start coding → Go to CODING.";
    "";
    "3. CODING → Answer questions briefly. If they say " ++ dq ++ "done" ++ dq ++ " or ask for review → Go to REVIEW.";
    "";
    "4. REVIEW → Ask: " ++ dq ++ "Walk me through your solution. What's the time and space complexity?" ++ dq ++ " → Go to FOLLOWUP.";
    "";
    "5. FOLLOWUP → Ask one follow-up question (" ++ dq ++ "Here's a follow-up question. What would be different if you were to use O(1) space and how would this affect the time complexity?" ++ dq ++ ") Only proceed to END when they give a reasonable, correct approach. If answer is wrong/incomplete, guide them: " ++ dq ++ "Can you think about this differently?" ++ dq ++ " or " ++ dq ++ "What about [concept]?" ++ dq ++ " Stay in FOLLOWUP until they demonstrate understanding.";
    "";
    "6. END → Say: " ++ dq ++ "Great, that's a good way to think about it. Thank you for your time; that's all the questions I have for today." ++ dq ++ " Then respond only: " ++ dq ++ "The interview has concluded. Thank you." ++ dq ++ " to any further input.";
    "";
    "RULES:";
    "- Keep responses to 1-2 sentences max";
    "- If they ask about critical errors in the code, provide a SHORT nudge in what the error may be, don't be too specific.";
    "- Plain text only, no formatting";
    "- Give hints only when explicitly asked: " ++ dq ++ "I'm stuck" ++ dq ++ " or " ++ dq ++ "hint" ++ dq ++ ", OR when follow-up answer is incorrect";
    "- Acknowledge with " ++ dq ++ "Okay" ++ dq ++ " or " ++ dq ++ "Makes sense" ++ dq ++ " when they're thinking aloud";
    "- Never volunteer extra information unless asked";
    "- Never provide code in any circumstance";
    ""].

(** [interview_system_prompt.format(problem=...)] *)
Definition format_interview_system_prompt (problem : string) : string :=
  interview_system_prompt_head ++ problem ++ interview_system_prompt_tail.

(* ------------------------------------------------------------------ *)
(** ** Outcome of a call that may raise *)

(** [Exn e] is a raised exception whose [str(e)] is [e]. *)
Inductive result (A : Type) : Type :=
| Ok (a : A)
| Exn (e : string).
Arguments Ok {A} a.
Arguments Exn {A} e.

(* ------------------------------------------------------------------ *)
(** ** [InterviewAgent] *)

Module InterviewAgent.

(** A chat object of the model client ([client.chats.create(...)]): its
    system instruction and the exchanges it has recorded. *)
Record ChatSession := mkChatSession {
  cs_system_instruction : string;
  cs_history : list (string * string)
}.

(** The attributes of an [InterviewAgent] object. [model_calls] is not an
    attribute: it observes, in order, every message handed to
    [chat_session.send_message], i.e. every call made to the model. *)
Record t := mkAgent {
  user_code : string;
  problem_description : string;
  history : list Turn;
  system_instruction : option string;
  chat_session : option ChatSession;
  model_calls : list string
}.

(** [InterviewAgent.__init__] *)
Definition init : t :=
  mkAgent no_code_sentinel "No problem provided" [] None None [].

Definition set_history (h : list Turn) (s : t) : t :=
  mkAgent (user_code s) (problem_description s) h (system_instruction s)
          (chat_session s) (model_calls s).

Definition set_user_code (c : string) (s : t) : t :=
  mkAgent c (problem_description s) (history s) (system_instruction s)
          (chat_session s) (model_calls s).

(** [InterviewAgent.clear_history()] *)
Definition clear_history (s : t) : t := set_history [] s.

(** [InterviewAgent.get_chat_history()]: a copy of [self.history] *)
Definition get_chat_history (s : t) : list Turn := history s.

(** State-and-exception monad over the agent: an exception carries the
    state reached at the point where it was raised. *)
Definition M (A : Type) : Type := t -> result A * t.

Definition ret {A} (a : A) : M A := fun s => (Ok a, s).
Definition bind {A B} (m : M A) (k : A -> M B) : M B :=
  fun s => match m s with
           | (Ok a, s') => k a s'
           | (Exn e, s') => (Exn e, s')
           end.
Definition get : M t := fun s => (Ok s, s).
Definition modify (f : t -> t) : M unit := fun s => (Ok tt, f s).
Definition raise {A} (e : string) : M A := fun s => (Exn e, s).

(** [try: m  except Exception as e: h(e)] *)
Definition try_except {A} (m : M A) (h : string -> M A) : M A :=
  fun s => match m s with
           | (Ok a, s') => (Ok a, s')
           | (Exn e, s') => h e s'
           end.

Notation "x <- m ;; k" := (bind m (fun x => k))
  (at level 61, m at next level, right associativity).
Notation "m ;;; k" := (bind m (fun _ => k))
  (at level 61, right associativity).

(** [history.append(entry)] *)
Definition append_history (entry : Turn) : M unit :=
  modify (fun s => set_history (app (history s) [entry]) s).

Section Agent.

(** The model client: [chat.send_message(msg)] on a chat object, returning
    [response.text] or raising. *)
Variable send_message : ChatSession -> string -> result string.

(** [InterviewAgent.update_problem(problem_data)], [description] being
    [problem_data.get('description')]. *)
Definition update_problem (description : option string) : M unit :=
  modify (fun s =>
    let pd := match description with
              | Some d => d
              | None => "No problem provided"
              end in
    let si := format_interview_system_prompt pd in
    mkAgent (user_code s) pd (history s) (Some si)
            (Some (mkChatSession si [])) (model_calls s)).

(** [self.chat_session.send_message(full_message)]; the attribute access
    on [None] raises. *)
Definition chat_send (full_message : string) : M string :=
  fun s =>
    match chat_session s with
    | None => (Exn "'NoneType' object has no attribute 'send_message'", s)
    | Some cs =>
        let calls := app (model_calls s) [full_message] in
        match send_message cs full_message with
        | Ok text =>
            (Ok text,
             mkAgent (user_code s) (problem_description s) (history s)
               (system_instruction s)
               (Some (mkChatSession (cs_system_instruction cs)
                        (app (cs_history cs) [(full_message, text)])))
               calls)
        | Exn e =>
            (Exn e,
             mkAgent (user_code s) (problem_description s) (history s)
               (system_instruction s) (chat_session s) calls)
        end
    end.

(** The "Previous Conversation" block built from [self.history]. *)
Definition history_context : M (list string) :=
  s <- get ;;
  match history s with
  | [] => ret []
  | _ =>
      let recent_history := get_last_n_messages (history s) 5 in
      match recent_history with
      | [] => ret []
      | _ =>
          let original_history := history s in
          modify (set_history recent_history) ;;;
          s' <- get ;;
          let chat_history := get_formatted_history (history s') in
          modify (set_history original_history) ;;;
          ret (if Py.truthy chat_history
               then ["Previous Conversation:" ++ Py.nl ++ chat_history]
               else [])
      end
  end.

(** The body of the [try] block of [send_message_agent]. *)
Definition send_message_agent_body (message user_code : string) : M string :=
  s <- get ;;
  (match chat_session s with
   | None => update_problem (Some "No problem provided yet")
   | Some _ => ret tt
   end) ;;;
  hist_parts <- history_context ;;
  let context_parts :=
    app hist_parts
      (if andb (Py.truthy user_code)
               (negb (String.eqb (Py.strip user_code) no_code_sentinel))
       then ["Current User Code:" ++ Py.nl ++ user_code]
       else []) in
  let full_message :=
    match context_parts with
    | [] => message
    | _ => message ++ two_nl ++ Py.join two_nl context_parts
    end in
  response <- chat_send full_message ;;
  modify (set_user_code user_code) ;;;
  append_history (mkTurn "user" message (Some user_code) None) ;;;
  append_history (mkTurn "assistant" response None None) ;;;
  ret response.

(** [InterviewAgent.send_message_agent(message, user_code)]; [now] is the
    value [datetime.now().isoformat()] would return. *)
Definition send_message_agent (now message user_code : string) : M string :=
  try_except (send_message_agent_body message user_code)
    (fun e =>
       let error_message := "An error occurred: " ++ e in
       append_history (mkTurn "system" error_message None (Some now)) ;;;
       ret error_message).

End Agent.

End InterviewAgent.

(* ------------------------------------------------------------------ *)
(** ** [str.format] with named fields *)

(** A format string as its literal pieces and [{name}] fields. *)
Inductive segment :=
| Lit (s : string)
| Field (name : string).

Fixpoint lookup_kw (kw : list (string * string)) (name : string) : option string :=
  match kw with
  | [] => None
  | (k, v) :: r => if String.eqb k name then Some v else lookup_kw r name
  end.

(** [template.format(...)] with the keywords [kw]; a field with no keyword raises [KeyError]. *)
Fixpoint format_segments (kw : list (string * string)) (t : list segment) : result string :=
  match t with
  | [] => Ok ""
  | Lit x :: r =>
      match format_segments kw r with Ok y => Ok (x ++ y) | Exn e => Exn e end
  | Field n :: r =>
      match lookup_kw kw n with
      | None => Exn ("'" ++ n ++ "'")
      | Some v =>
          match format_segments kw r with Ok y => Ok (v ++ y) | Exn e => Exn e end
      end
  end.

(** [prompt.feedback_system_prompt]; [{chat_history}] and [{final_code}]
    occur twice. *)
Definition feedback_system_prompt : list segment := [
  Lit (Py.join Py.nl [
      "";
      "You are an expert technical interviewer evaluating a candidate's performance in a coding interview. Your feedback must focus primarily on:";
      "";
      "A. CLARIFICATION BEHAVIOR";
      "B. EXPLICIT REASONING (CHAIN OF THOUGHT SHARING)";
      "C. SOLUTION QUALITY & OPTIMALITY";
      "";
      "Inputs:";
      "Problem Statement:";
      ""]);
  Field "problem";
  Lit (Py.join Py.nl [
      "";
      "";
      "Chat History Context:";
      ""]);
  Field "chat_history";
  Lit (Py.join Py.nl [
      "";
      "";
      "Final Code Submission:";
      ""]);
  Field "final_code";
  Lit (Py.join Py.nl [
      "";
      "";
      "### EVALUATION INSTRUCTIONS";
      "";
      "Produce an evaluation with the following sections and an overall score. Base judgments ONLY on evidence apparent in "]);
  Field "chat_history";
  Lit (Py.join Py.nl [
      " and "]);
  Field "final_code";
  Lit (Py.join Py.nl [
      ". If something is absent, treat it as NOT demonstrated (do not assume).";
      "";
      "---";
      "";
      "";
      "## 1. CLARIFICATION & REQUIREMENT GATHERING (Score 0–5)";
      "Evaluate how effectively the candidate narrowed ambiguity *before or early during coding*.";
      "Consider:";
      "- Did they ask purposeful clarifying questions about constraints, input domain, edge cases, performance limits, data sizes, error conditions, mutability, or output format?";
      "- Did they confirm assumptions aloud?";
      "- Did they restate the problem precisely?";
      "";
      "";
      "**Scoring Guide:**";
      "- 5: Proactively surfaced key hidden constraints, verified assumptions, explored edge cases thoroughly.";
      "- 4: Asked several relevant clarifications; minor omissions.";
      "- 3: Some clarification attempts but missed notable ambiguities.";
      "- 2: Minimal clarification—mostly reactive; important assumptions unchecked.";
      "- 1: Essentially no clarification; proceeded on unchecked assumptions.";
      "- 0: Asked misleading or irrelevant questions or ignored explicit ambiguities.";
      "";
      "";
      "List concrete examples (quote paraphrased snippets) that justify the score.";
      "";
      "---";
      "";
      "## 2. REASONING TRANSPARENCY / CHAIN OF THOUGHT (Score 0–5)";
      "Assess how well they externalized thinking.";
      "Consider:";
      "- Did they outline an approach before coding?";
      "- Did they compare alternate strategies or complexities?";
      "- Did they verbalize invariants, data structure choices, failure modes?";
      "- Did they narrate debugging steps or test reasoning?";
      "";
      "";
      "**Scoring Guide:**";
      "- 5: Continuous, structured narration; compares alternatives with complexity trade-offs.";
      "- 4: Clear approach + intermittent reasoning; minor gaps.";
      "- 3: Some explanation; notable silent jumps.";
      "- 2: Sparse reasoning; mostly just code.";
      "- 1: Minimal commentary; reasoning largely opaque.";
      "- 0: No discernible reasoning or incorrect meta-explanations hindering progress.";
      "";
      "";
      "Cite evidence.";
      "";
      "---";
      "";
      "## 3. SOLUTION QUALITY & OPTIMALITY (Score 0–5)";
      "Judge final solution *relative to known optimal constraints for this problem*.";
      "Consider:";
      "- Asymptotic time & space vs optimal known bounds.";
      "- Correctness across typical & edge cases (state unhandled cases).";
      "- Code clarity (naming, structure) only insofar as it affects evaluability.";
      "- Appropriate data structure / algorithm choices.";
      "- If suboptimal: is a better-known standard solution available?";
      "";
      "";
      "**Scoring Guide:**";
      "- 5: Fully correct, handles edge cases, achieves optimal time & space, clean and idiomatic.";
      "- 4: Correct and near-optimal (e.g., optimal time but minor avoidable extra space or small edge omission).";
      "- 3: Generally works for main path; misses some edge cases or has mildly suboptimal complexity.";
      "- 2: Partially correct; noticeable logical gaps or clearly suboptimal complexity given constraints.";
      "- 1: Major correctness issues; inefficient vs well-known standard.";
      "- 0: Fails to produce a working or relevant solution.";
      "";
      "";
      "Explicitly state:";
      "- Claimed complexity vs Actual complexity vs Known optimal complexity.";
      "- Missing or mishandled edge cases (enumerate).";
      "- If improved solution exists, summarize it succinctly.";
      "";
      "";
      "---";
      "";
      "";
      "## 4. SCORE SUMMARY";
      "Provide numerical scores (0-5) for each category and calculate the total score (0-15). Also provide a recommendation based on the scoring heuristic and a brief explanation justifying your scores and recommendation.";
      "";
      "";
      "Recommendation Heuristic (guideline, adjust if justified):";
      "- Strong Hire: all ≥4 and at least one 5.";
      "- Hire: total ≥10 with no category <3.";
      "- No Hire: total 6–9 or any category =2.";
      "- Strong No Hire: any category ≤1 or total ≤5.";
      "";
      "";
      "Justify if deviating.";
      "";
      "---";
      "";
      "## 5. TARGETED FEEDBACK & IMPROVEMENT PLAN";
      "Concise, prioritized bullets:";
      "- **If Clarification <5:** Which specific missed questions should have been asked.";
      "- **If Reasoning <5:** How to externalize thinking better (concrete tactics).";
      "- **If Solution <5:** Specific algorithm/data structure or pattern to study; outline optimal approach in 2–4 sentences.";
      "";
      "";
      "Avoid generic platitudes.";
      "";
      "---";
      "";
      "### OUTPUT FORMAT RULES";
      "- Follow the section order exactly: 1–5.";
      "- Use professional, constructive tone.";
      "- Do NOT reveal private evaluator meta-process or unseen info.";
      "- Keep each section focused; avoid redundancy.";
      "- Include only problem-relevant technical detail.";
      "";
      "";
      "Begin your response now.";
      ""])].

(* ------------------------------------------------------------------ *)
(** ** [FeedbackAgent] *)

Module FeedbackAgent.

(** The attributes of a [FeedbackAgent]; the chat object is represented by
    its system instruction. [model_calls] observes the requests handed to
    [client.models.generate_content]. *)
Record t := mkFeedbackAgent {
  chat_history_context : string;
  problem_description : string;
  final_code : string;
  system_instruction : option string;
  chat_session : option string;
  model_calls : list string
}.

(** [FeedbackAgent.__init__] *)
Definition init : t :=
  mkFeedbackAgent "No chat history provided yet." "No problem provided"
                  "No code provided" None None [].

Definition feedback_request : string :=
  "Please provide a comprehensive evaluation of this candidate's performance based on the problem, chat history, and final code provided in the context.".

Definition context_not_initialized : string :=
  "Error: Context not initialized. Please call update_context first.".

(** [FeedbackAgent.update_context(problem_data, chat_history, final_code)],
    [description] being [problem_data.get('description')]; the chat object
    created is represented by its system instruction. *)
Definition update_context (s : t) (description : option string)
  (chat_history final_code : string) : result t :=
  let pd := match description with Some d => d | None => "No problem provided" end in
  let ch := if Py.truthy chat_history then chat_history else "No chat history provided." in
  let fc := if Py.truthy final_code then final_code else "No code provided" in
  match format_segments [("problem", pd); ("chat_history", ch); ("final_code", fc)]
          feedback_system_prompt with
  | Ok si => Ok (mkFeedbackAgent ch pd fc (Some si) (Some si) (model_calls s))
  | Exn e => Exn e
  end.

Section Feedback.

(** [client.models.generate_content(contents=..., config={... system_instruction})]
    followed by [response.parsed.model_dump_json()]. *)
Variable generate_content : string -> string -> result string.

(** [FeedbackAgent.generate_feedback_json()] *)
Definition generate_feedback_json (s : t) : string * t :=
  match chat_session s with
  | None => (context_not_initialized, s)
  | Some _ =>
      let si := match system_instruction s with Some x => x | None => "" end in
      let s' := mkFeedbackAgent (chat_history_context s) (problem_description s)
                  (final_code s) (system_instruction s) (chat_session s)
                  (app (model_calls s) [feedback_request]) in
      match generate_content si feedback_request with
      | Ok json => (json, s')
      | Exn e => ("An error occurred while generating feedback: " ++ e, s')
      end
  end.

End Feedback.

End FeedbackAgent.

(* ------------------------------------------------------------------ *)
(** ** The per-connection coordinator ([websockets/ws.py]) *)

Module Coordinator.

(** A decoded inbound JSON object: [None] for an absent key. *)
Record Json := mkJson {
  j_type : option string;
  j_data : option string;
  j_isFinal : option bool;
  j_message : option string;
  j_codeContext : option string
}.

Definition get_str (o : option string) (default : string) : string :=
  match o with Some x => x | None => default end.

(** Outbound events ([manager.send_personal_message]); the [timestamp]
    field, [datetime.now().isoformat()], is left out. *)
Inductive Outbound :=
| UserMessage (message source : string)
| AiMessage (message messageType : string)
| InterimSpeech (message : string)
| Pong.

(** Calls made to the narration controller ([tts_service]). *)
Inductive TtsCall :=
| StopAudio
| Speak (text : string).

(** State of one connection loop: the shared [interview_agent], the local
    [last_code_context], what was pushed to the client and the narration
    calls. The client stays registered with [manager] for the whole loop. *)
Record Conn := mkConn {
  agent : InterviewAgent.t;
  last_code_context : string;
  outbox : list Outbound;
  tts_calls : list TtsCall
}.

Definition push (o : Outbound) (c : Conn) : Conn :=
  mkConn (agent c) (last_code_context c) (app (outbox c) [o]) (tts_calls c).

Definition tts (x : TtsCall) (c : Conn) : Conn :=
  mkConn (agent c) (last_code_context c) (outbox c) (app (tts_calls c) [x]).

Definition nudge_prompt : string :=
  "The user has been silent for a while. Offer a gentle hint or ask a question to help them get unstuck. Don't give away the full answer.".

Definition chat_placeholder : string := "[AI response placeholder]".

Section Coordinator.

Variable send_message : InterviewAgent.ChatSession -> string -> result string.
(** [datetime.now().isoformat()] at the time of the call *)
Variable now : string.

(** [interview_agent.send_message_agent(message, code)] on the shared agent *)
Definition call_agent (message code : string) (c : Conn) : string * Conn :=
  let '(r, ag) :=
    InterviewAgent.send_message_agent send_message now message code (agent c) in
  let reply := match r with Ok x => x | Exn e => e end in
  (reply, mkConn ag (last_code_context c) (outbox c) (tts_calls c)).

(** [handle_speech_message(message_data, client_id)] *)
Definition handle_speech_message (md : Json) (c : Conn) : Conn :=
  let c := tts StopAudio c in
  let transcript := get_str (j_data md) "" in
  let is_final := match j_isFinal md with Some b => b | None => false end in
  let code_context := get_str (j_codeContext md) "" in
  if andb is_final (Py.truthy (Py.strip transcript)) then
    let c := push (UserMessage transcript "speech") c in
    let '(ai_response, c) := call_agent transcript code_context c in
    let c := push (AiMessage ai_response "response") c in
    tts (Speak ai_response) c
  else if negb is_final then
    push (InterimSpeech transcript) c
  else c.

(** [handle_chat_message(message_data, client_id)] *)
Definition handle_chat_message (md : Json) (c : Conn) : Conn :=
  let message := get_str (j_message md) "" in
  if Py.truthy (Py.strip message) then
    let c := push (UserMessage message "text") c in
    push (AiMessage chat_placeholder "response") c
  else c.

(** One iteration of the [while True] loop of [websocket_endpoint]. *)
Inductive Inbound :=
| Received (decoded : option Json)   (** [None]: [json.loads] raised *)
| IdleTimeout.                       (** [asyncio.wait_for] timed out (30 s) *)

(** [None]: the loop is left through the outer [except Exception] and the
    client is disconnected. *)
Definition endpoint_step (ev : Inbound) (c : Conn) : option Conn :=
  match ev with
  | Received None => None
  | Received (Some md) =>
      let c := mkConn (agent c) (get_str (j_codeContext md) (last_code_context c))
                      (outbox c) (tts_calls c) in
      match j_type md with
      | Some "speech" => Some (handle_speech_message md c)
      | Some "chat" => Some (handle_chat_message md c)
      | Some "ping" => Some (push Pong c)
      | _ => Some c
      end
  | IdleTimeout =>
      let '(ai_hint, c) := call_agent nudge_prompt (last_code_context c) c in
      let c := push (AiMessage ai_hint "hint") c in
      Some (tts (Speak ai_hint) c)
  end.

(** [await manager.connect(...)]; [last_code_context = ""] *)
Definition connect (ag : InterviewAgent.t) : Conn := mkConn ag "" [] [].

End Coordinator.

End Coordinator.

(* ------------------------------------------------------------------ *)
(** ** [POST /end] ([api/v1/interview.py]) *)

Module InterviewApi.

Section EndInterview.

Variable generate_content : string -> string -> result string.
(** The decoded JSON value type and [json.loads]. *)
Variable Feedback : Type.
Variable json_loads : string -> result Feedback.

(** [end_interview()] on the shared agents: the narration calls it makes,
    the response ([Ok] feedback data, or [Exn detail] for the
    [HTTPException(500)]) and the feedback agent afterwards. *)
Definition end_interview (ia : InterviewAgent.t) (fa : FeedbackAgent.t)
  : list Coordinator.TtsCall * result Feedback * FeedbackAgent.t :=
  let tts := [Coordinator.StopAudio] in
  let code_context := InterviewAgent.user_code ia in
  let chat_history := get_formatted_history (InterviewAgent.history ia) in
  match FeedbackAgent.update_context fa (Some (InterviewAgent.problem_description ia))
          chat_history code_context with
  | Exn e => (tts, Exn ("Failed to generate feedback: " ++ e), fa)
  | Ok fa1 =>
      let '(feedback_json, fa2) := FeedbackAgent.generate_feedback_json generate_content fa1 in
      match json_loads feedback_json with
      | Ok feedback_data => (tts, Ok feedback_data, fa2)
      | Exn e => (tts, Exn ("Failed to generate feedback: " ++ e), fa2)
      end
  end.

End EndInterview.

End InterviewApi.

(* ------------------------------------------------------------------ *)
(** ** [ConnectionManager] ([websockets/connection.py]) *)

(** [active_connections] is a dict: an association list in insertion
    order, assignment to a present key keeping its place. [sent] records
    every [websocket.send_text]; transport failures are not modelled. *)
Module ConnectionManager.

Section Manager.

Variable WebSocket : Type.
Variable Message : Type.
(** [json.dumps] *)
Variable dumps : Message -> string.

Record t := mkManager {
  active_connections : list (string * WebSocket);
  sent : list (WebSocket * string)
}.

Definition init : t := mkManager [] [].

Fixpoint dict_get (d : list (string * WebSocket)) (k : string) : option WebSocket :=
  match d with
  | [] => None
  | (k', v) :: r => if String.eqb k' k then Some v else dict_get r k
  end.

(** [d[k] = v] *)
Fixpoint dict_set (d : list (string * WebSocket)) (k : string) (v : WebSocket)
  : list (string * WebSocket) :=
  match d with
  | [] => [(k, v)]
  | (k', v') :: r => if String.eqb k' k then (k', v) :: r else (k', v') :: dict_set r k v
  end.

(** [del d[k]] *)
Fixpoint dict_del (d : list (string * WebSocket)) (k : string) : list (string * WebSocket) :=
  match d with
  | [] => []
  | (k', v') :: r => if String.eqb k' k then r else (k', v') :: dict_del r k
  end.

(** [connect(websocket, client_id)] (after [websocket.accept()]) *)
Definition connect (ws : WebSocket) (client_id : string) (m : t) : t :=
  mkManager (dict_set (active_connections m) client_id ws) (sent m).

(** [disconnect(client_id)] *)
Definition disconnect (client_id : string) (m : t) : t :=
  match dict_get (active_connections m) client_id with
  | Some _ => mkManager (dict_del (active_connections m) client_id) (sent m)
  | None => m
  end.

(** [send_personal_message(message, client_id)] *)
Definition send_personal_message (message : Message) (client_id : string) (m : t) : t :=
  match dict_get (active_connections m) client_id with
  | Some ws => mkManager (active_connections m) (app (sent m) [(ws, dumps message)])
  | None => m
  end.

End Manager.

End ConnectionManager.

(* ------------------------------------------------------------------ *)
(** ** Narration controller ([tts_service.py]) *)

(** The module globals [_pipeline], [_current_playback_thread],
    [_stop_event] and [_is_playing], the playback threads, and the shared
    [sounddevice] output. Threads run concurrently with the caller, so the
    program is an interleaving step relation. Threads are numbered in the
    order they are started; an audio chunk is a [nat]. *)
Module Narration.

(** Program point of a thread running [_play_audio_thread(text, voice)].
    Every statement that reads or writes shared state (the module globals,
    the device) is a step of its own. *)
Inductive pc :=
| Start                      (** started, [_is_playing = True] not yet run *)
| Init                       (** at [if _pipeline is None], then preprocessing
                                 and [_pipeline(processed_text, voice=voice)] *)
| Gen (rest : list nat)      (** at the head of the [for] loop: the generator
                                 yields its next chunk or is exhausted *)
| Play (ch : nat) (rest : list nat)
                             (** chunk [ch] passed [if _stop_event.is_set()];
                                 [logger.debug] then [sd.play(audio, 24000)] *)
| Wait (rest : list nat)     (** at [while sd.get_stream().active] *)
| Poll (rest : list nat)     (** in that loop, at [if _stop_event.is_set()] *)
| Halt (rest : list nat)     (** the flag was seen set: at [sd.stop()] *)
| Done.                      (** returned (after [finally]) *)

(** The statements that may raise: preprocessing and the pipeline call,
    the generator, [sd.play], [sd.get_stream()], [sd.stop()]. The [except]
    clause logs, and [finally] sets [_is_playing = False]. *)
Definition can_raise (p : pc) : bool :=
  match p with
  | Init | Gen _ | Play _ _ | Wait _ | Halt _ => true
  | Start | Poll _ | Done => false
  end.

Record worker := mkWorker { w_text : string; w_pc : pc }.

Inductive dev_op :=
| DevPlay (thread : nat) (chunk : nat)   (** [sd.play(audio, 24000)] *)
| DevStop.                               (** [sd.stop()] *)

Record G := mkG {
  pipeline : bool;                 (** [_pipeline is not None] *)
  current : option nat;            (** [_current_playback_thread] *)
  stop_event : bool;               (** [_stop_event.is_set()] *)
  is_playing : bool;               (** [_is_playing] *)
  workers : list worker;
  stream : option (nat * nat);     (** active output stream: thread, chunk *)
  dev_log : list dev_op            (** every call made to the device *)
}.

Definition alive (w : worker) : bool :=
  match w_pc w with Done => false | _ => true end.

Definition alive_count (g : G) : nat := length (filter alive (workers g)).

Definition set_worker (i : nat) (w : worker) (ws : list worker) : list worker :=
  firstn i ws ++ w :: skipn (S i) ws.

(** The caller's statements. *)

(** [_stop_event.set()] *)
Definition set_flag (g : G) : G :=
  mkG (pipeline g) (current g) true (is_playing g) (workers g) (stream g) (dev_log g).

(** [_stop_event.clear()] *)
Definition clear_flag (g : G) : G :=
  mkG (pipeline g) (current g) false (is_playing g) (workers g) (stream g) (dev_log g).

(** [sd.stop()]: the active stream, whichever thread started it, ends. *)
Definition dev_stop (g : G) : G :=
  mkG (pipeline g) (current g) (stop_event g) (is_playing g) (workers g) None
      (dev_log g ++ [DevStop]).

(** [_is_playing = False] *)
Definition clear_playing (g : G) : G :=
  mkG (pipeline g) (current g) (stop_event g) false (workers g) (stream g) (dev_log g).

(** [_current_playback_thread = threading.Thread(...)] and its [start()]:
    the new thread is numbered [length (workers g)] and is at [p]
    ([Start] when started, [Done] for a thread object never started). *)
Definition new_thread (text : string) (p : pc) (g : G) : G :=
  mkG (pipeline g) (Some (length (workers g))) (stop_event g) (is_playing g)
      (workers g ++ [mkWorker text p]) (stream g) (dev_log g).

Section Steps.

(** The Kokoro pipeline: the audio chunks generated for a text (after
    [preprocess_technical_text] and [preprocess_constraints_text]). *)
Variable synth : string -> list nat.

Definition with_worker (g : G) (i : nat) (w : worker) (is_pl : bool)
  (str : option (nat * nat)) (log : list dev_op) : G :=
  mkG (pipeline g) (current g) (stop_event g) is_pl
      (set_worker i w (workers g)) str log.

(** One atomic step of thread [i]. *)
Inductive worker_step (i : nat) : G -> G -> Prop :=
| ws_start : forall g t,
    nth_error (workers g) i = Some (mkWorker t Start) ->
    worker_step i g (with_worker g i (mkWorker t Init) true (stream g) (dev_log g))
| ws_init_none : forall g t,
    nth_error (workers g) i = Some (mkWorker t Init) ->
    pipeline g = false ->
    worker_step i g (with_worker g i (mkWorker t Done) false (stream g) (dev_log g))
| ws_init : forall g t,
    nth_error (workers g) i = Some (mkWorker t Init) ->
    pipeline g = true ->
    worker_step i g (with_worker g i (mkWorker t (Gen (synth t))) (is_playing g)
                       (stream g) (dev_log g))
| ws_gen_end : forall g t,
    nth_error (workers g) i = Some (mkWorker t (Gen [])) ->
    worker_step i g (with_worker g i (mkWorker t Done) false (stream g) (dev_log g))
| ws_gen_stop : forall g t ch rest,
    nth_error (workers g) i = Some (mkWorker t (Gen (ch :: rest))) ->
    stop_event g = true ->
    worker_step i g (with_worker g i (mkWorker t Done) false (stream g) (dev_log g))
| ws_gen_pass : forall g t ch rest,
    nth_error (workers g) i = Some (mkWorker t (Gen (ch :: rest))) ->
    stop_event g = false ->
    worker_step i g (with_worker g i (mkWorker t (Play ch rest)) (is_playing g)
                       (stream g) (dev_log g))
| ws_play : forall g t ch rest,
    nth_error (workers g) i = Some (mkWorker t (Play ch rest)) ->
    worker_step i g (with_worker g i (mkWorker t (Wait rest)) (is_playing g)
                       (Some (i, ch)) (dev_log g ++ [DevPlay i ch]))
| ws_wait_inactive : forall g t rest,
    nth_error (workers g) i = Some (mkWorker t (Wait rest)) ->
    stream g = None ->
    worker_step i g (with_worker g i (mkWorker t (Gen rest)) (is_playing g)
                       (stream g) (dev_log g))
| ws_wait_active : forall g t rest x,
    nth_error (workers g) i = Some (mkWorker t (Wait rest)) ->
    stream g = Some x ->
    worker_step i g (with_worker g i (mkWorker t (Poll rest)) (is_playing g)
                       (stream g) (dev_log g))
| ws_poll_set : forall g t rest,
    nth_error (workers g) i = Some (mkWorker t (Poll rest)) ->
    stop_event g = true ->
    worker_step i g (with_worker g i (mkWorker t (Halt rest)) (is_playing g)
                       (stream g) (dev_log g))
| ws_poll_clear : forall g t rest,     (** [time.sleep(0.01)], then the test again *)
    nth_error (workers g) i = Some (mkWorker t (Poll rest)) ->
    stop_event g = false ->
    worker_step i g (with_worker g i (mkWorker t (Wait rest)) (is_playing g)
                       (stream g) (dev_log g))
| ws_halt : forall g t rest,           (** [sd.stop()], [break] to the [for] loop *)
    nth_error (workers g) i = Some (mkWorker t (Halt rest)) ->
    worker_step i g (with_worker g i (mkWorker t (Gen rest)) (is_playing g)
                       None (dev_log g ++ [DevStop]))
| ws_raise : forall g t p,
    nth_error (workers g) i = Some (mkWorker t p) ->
    can_raise p = true ->
    worker_step i g (with_worker g i (mkWorker t Done) false (stream g) (dev_log g)).

(** Some thread steps, or the active chunk runs out. *)
Inductive bg_step : G -> G -> Prop :=
| bg_worker : forall i g g', worker_step i g g' -> bg_step g g'
| bg_chunk_end : forall g x,
    stream g = Some x ->
    bg_step g (mkG (pipeline g) (current g) (stop_event g) (is_playing g)
                   (workers g) None (dev_log g)).

Inductive bg_steps : G -> G -> Prop :=
| bg_refl : forall g, bg_steps g g
| bg_trans : forall g1 g2 g3, bg_step g1 g2 -> bg_steps g2 g3 -> bg_steps g1 g3.

(** [stop_audio()]: [_stop_event.set()], [sd.stop()] (its exceptions are
    caught), the bounded [join] if the thread is alive, [_is_playing = False].
    The threads run between any two of these statements; while the caller is
    blocked in [join(timeout=1.0)] they run until the thread has finished or
    the second has elapsed, which, the length of a synthesis step being
    unbounded, may happen with the thread alive: any number of background
    steps. *)
Inductive stop_audio : G -> G -> Prop :=
| stop_audio_run : forall g g1 g2,
    bg_steps (set_flag g) g1 ->
    bg_steps (dev_stop g1) g2 ->
    stop_audio g (clear_playing g2).

(** [speak(text)]: [ret] is the returned [bool]. The threads run between
    [stop_audio()], [_stop_event.clear()] and the creation of the new
    thread. *)
Inductive speak (text : string) : G -> G -> bool -> Prop :=
| speak_no_pipeline : forall g,
    pipeline g = false -> speak text g g false
| speak_start : forall g g1 g2,
    pipeline g = true ->
    stop_audio g g1 ->
    bg_steps (clear_flag g1) g2 ->
    speak text g (new_thread text Start g2) true
| speak_start_failed : forall g g1 g2,  (** [start()] raised *)
    pipeline g = true ->
    stop_audio g g1 ->
    bg_steps (clear_flag g1) g2 ->
    speak text g (new_thread text Done g2) false.

(** The whole system: background steps, and calls by the coordinator. *)
Inductive sys_step : G -> G -> Prop :=
| sys_bg : forall g g', bg_step g g' -> sys_step g g'
| sys_speak : forall text g g' r, speak text g g' r -> sys_step g g'
| sys_stop : forall g g', stop_audio g g' -> sys_step g g'.

(** From the module's initial globals, [initialize_tts] having set
    [_pipeline] or not. *)
Inductive reachable : G -> Prop :=
| reach_init : forall p, reachable (mkG p None false false [] None [])
| reach_step : forall g g', reachable g -> sys_step g g' -> reachable g'.

End Steps.

End Narration.

(* ------------------------------------------------------------------ *)
(** ** Rendering of the transcript as the specification describes it *)

(** Spec side of [renderFormatted()]: one ["ROLE: content"] block per
    turn with non-empty (trimmed) content, a user turn whose trimmed code
    snapshot is non-empty and not the sentinel getting a
    ["User Code Context:"] section, blocks separated by a blank line. *)
Definition has_content (t : Turn) : bool := Py.truthy (Py.strip (content t)).

Definition code_section (t : Turn) : string :=
  match user_code t with
  | Some uc =>
      if andb (String.eqb (Py.upper (role t)) "USER")
              (andb (Py.truthy (Py.strip uc))
                    (negb (String.eqb (Py.strip uc) no_code_sentinel)))
      then two_nl ++ "User Code Context:" ++ Py.nl ++ Py.strip uc
      else ""
  | None => ""
  end.

Definition rendered_block (t : Turn) : string :=
  Py.upper (role t) ++ ": " ++ Py.strip (content t) ++ code_section t.

Definition renderFormatted (history : list Turn) : string :=
  Py.join two_nl (map rendered_block (filter has_content history)).

(* ------------------------------------------------------------------ *)
(** ** What [send_message_agent] hands to the model *)

Module AgentFacts.
Import InterviewAgent.

(** The chat object [send_message_agent] sends on. *)
Definition session_of (s : InterviewAgent.t) : ChatSession :=
  match chat_session s with
  | Some cs => cs
  | None =>
      mkChatSession (format_interview_system_prompt "No problem provided yet") []
  end.

(** The "Previous Conversation" part computed from a history. *)
Definition history_parts (h : list Turn) : list string :=
  match h with
  | [] => []
  | _ =>
      match get_last_n_messages h 5 with
      | [] => []
      | recent =>
          let chat_history := get_formatted_history recent in
          if Py.truthy chat_history
          then ["Previous Conversation:" ++ Py.nl ++ chat_history]
          else []
      end
  end.

(** The [full_message] built from a history, a message and a code context. *)
Definition full_message_of (h : list Turn) (message code : string) : string :=
  let context_parts :=
    app (history_parts h)
      (if andb (Py.truthy code)
               (negb (String.eqb (Py.strip code) no_code_sentinel))
       then ["Current User Code:" ++ Py.nl ++ code]
       else []) in
  match context_parts with
  | [] => message
  | _ => message ++ two_nl ++ Py.join two_nl context_parts
  end.

End AgentFacts.

(* ------------------------------------------------------------------ *)
(** ** Model clients used on concrete inputs *)

(** A model client that always raises an exception whose text is [e]. *)
Definition failing_model (e : string) : InterviewAgent.ChatSession -> string -> result string :=
  fun _ _ => Exn e.

(** A model client that always answers [r]. *)
Definition constant_model (r : string) : InterviewAgent.ChatSession -> string -> result string :=
  fun _ _ => Ok r.

Definition now0 : string := "2026-10-15T12:00:00".

(** What [send_message_agent] returns for the outcome of its model call. *)
Definition reply_of (r : result string) : string :=
  match r with
  | Ok text => text
  | Exn e => "An error occurred: " ++ e
  end.

(** What [send_message_agent] appends to [self.history] for the outcome of
    its model call. *)
Definition turns_of (now message code : string) (r : result string) : list Turn :=
  match r with
  | Ok text => [mkTurn "user" message (Some code) None;
                mkTurn "assistant" text None None]
  | Exn e => [mkTurn "system" ("An error occurred: " ++ e) None (Some now)]
  end.

(** An agent whose interview has reached the END phase: the model has said
    the END transition phrase and then the closing string. *)
Definition ended_agent : InterviewAgent.t :=
  InterviewAgent.mkAgent "" "Two Sum"
    [mkTurn "user" "I would sort a copy and use two pointers." (Some "") None;
     mkTurn "assistant" "Great, that's a good way to think about it. Thank you for your time; that's all the questions I have for today." None None;
     mkTurn "user" "Thanks!" (Some "") None;
     mkTurn "assistant" "The interview has concluded. Thank you." None None]
    (Some (format_interview_system_prompt "Two Sum"))
    (Some (InterviewAgent.mkChatSession (format_interview_system_prompt "Two Sum") []))
    [].

Definition speech_final (text : string) : Coordinator.Json :=
  Coordinator.mkJson (Some "speech") (Some text) (Some true) None (Some "").

Definition chat_event (text : string) : Coordinator.Json :=
  Coordinator.mkJson (Some "chat") None None (Some text) (Some "").

(** A speech synthesiser producing two chunks for every text. *)
Definition two_chunks (text : string) : list nat := [7; 8]%nat.

(** The narration state once [initialize_tts] has succeeded. *)
Definition tts_initialized : Narration.G :=
  Narration.mkG true None false false [] None [].

(** The narration state after [speak("A")], thread A reaching its generator,
    [speak("B")] with the join timing out while A synthesises, and A playing
    its first chunk. *)
Definition speak_A_then_B : Narration.G :=
  Narration.mkG true (Some 1%nat) false false
    [Narration.mkWorker "A" (Narration.Wait [8]%nat); Narration.mkWorker "B" Narration.Start]
    (Some (0, 7)%nat) [Narration.DevStop; Narration.DevStop; Narration.DevPlay 0 7].

(** [stop_audio()] when the join returns at once (no thread runs meanwhile:
    the thread has finished, or the timeout elapses first). *)
Definition stop_now (g : Narration.G) : Narration.G :=
  Narration.clear_playing (Narration.dev_stop (Narration.set_flag g)).

(** Thread A has passed its stop check for chunk 7 and is about to play it. *)
Definition playing_A : Narration.G :=
  Narration.mkG true (Some 0%nat) false true
    [Narration.mkWorker "A" (Narration.Play 7 [8]%nat)] None [].

(** After [stop_audio()] during which thread A played chunk 7. *)
Definition playing_A_stopped : Narration.G :=
  Narration.mkG true (Some 0%nat) true false
    [Narration.mkWorker "A" (Narration.Wait [8]%nat)] None
    [Narration.DevPlay 0 7; Narration.DevStop].

(* ------------------------------------------------------------------ *)
(** ** What a playback thread has sent to the device *)

Module NarrationObs.
Import Narration.

(** The chunks thread [i] handed to [sd.play], in order. *)
Definition plays (i : nat) (log : list dev_op) : list nat :=
  flat_map (fun o => match o with
                     | DevPlay j ch => if Nat.eqb j i then [ch] else []
                     | DevStop => []
                     end) log.

Section Obs.
Variable synth : string -> list nat.

(** What a thread at program point [p] for text [t] has played so far:
    nothing before it reaches the generator, the chunks already taken from
    the generator while it runs (the one it is about to play apart), some
    prefix of them once it has returned. *)
Definition thread_ok (t : string) (p : pc) (played : list nat) : Prop :=
  match p with
  | Start | Init => played = []
  | Gen rest | Wait rest | Poll rest | Halt rest => app played rest = synth t
  | Play ch rest => app played (ch :: rest) = synth t
  | Done => exists rest, app played rest = synth t
  end.

(** Every [DevPlay] names a started thread, and every thread is consistent
    with its program point. *)
Definition plays_inv (ws : list worker) (log : list dev_op) : Prop :=
  and (forall i ch, In (DevPlay i ch) log -> lt i (length ws))
      (forall i w, nth_error ws i = Some w -> thread_ok (w_text w) (w_pc w) (plays i log)).

End Obs.

Definition at_play (p : pc) : bool :=
  match p with Play _ _ => true | _ => false end.

(** Since [g0], with the stop flag set throughout: the flag is still set,
    the device received [ops], a thread now about to play was already about
    to play the same chunk in [g0] and has played nothing since, and each
    thread has played nothing or the one chunk it was about to play in [g0]. *)
Definition flagged_inv (g0 g : G) : Prop :=
  stop_event g = true /\
  exists ops, dev_log g = app (dev_log g0) ops /\
  forall i,
    (forall w, nth_error (workers g) i = Some w -> at_play (w_pc w) = true ->
               nth_error (workers g0) i = Some w /\ plays i ops = []) /\
    (plays i ops = [] \/
     exists t ch rest, nth_error (workers g0) i = Some (mkWorker t (Play ch rest)) /\
                       plays i ops = [ch]).

End NarrationObs.

(* ------------------------------------------------------------------ *)
(** ** Helper lemmas *)

Lemma string_append_empty_r (s : string) : s ++ "" = s.
Proof. induction s as [|c s IH]; simpl; [reflexivity | now rewrite IH]. Qed.

Lemma fold_format_entry (h : list Turn) (acc : list string) :
  fold_left format_entry h acc = app acc (map rendered_block (filter has_content h)).
Proof.
  revert acc; induction h as [|t h IH]; intros acc; simpl.
  - now rewrite app_nil_r.
  - unfold format_entry at 2, has_content, rendered_block, code_section.
    destruct (Py.truthy (Py.strip (content t))) eqn:Hc; simpl.
    + destruct (String.eqb (Py.upper (role t)) "USER") eqn:Hu;
        destruct (user_code t) as [uc|]; simpl;
        try (destruct (andb (Py.truthy (Py.strip uc))
                         (negb (String.eqb (Py.strip uc) no_code_sentinel))));
        rewrite IH, <- app_assoc; simpl;
        try rewrite string_append_empty_r; reflexivity.
    + apply IH.
Qed.

Module AgentLemmas.
Import InterviewAgent AgentFacts.

Lemma set_history_same (s : InterviewAgent.t) : set_history (history s) s = s.
Proof. now destruct s. Qed.

(** The temporary narrowing of [self.history] is undone: the state after
    [history_context] is the state before it. *)
Lemma history_context_eq (s : InterviewAgent.t) :
  history_context s = (Ok (history_parts (history s)), s).
Proof.
  destruct s as [uc pd h si cs mc]; unfold history_context, history_parts,
    bind, get, modify, ret; simpl.
  destruct h as [|t h]; [reflexivity|].
  destruct (get_last_n_messages (t :: h) 5); reflexivity.
Qed.

Section Spec.
Variable send : ChatSession -> string -> result string.
Variable now : string.

(** [send_message_agent] makes exactly one model call, on [session_of s]
    with [full_message_of]; on success it appends a user and an assistant
    turn and records the code, on failure it appends one system turn. *)
Lemma send_message_agent_spec (message code : string) (s : InterviewAgent.t) :
  let full := full_message_of (history s) message code in
  let '(r, s') := send_message_agent send now message code s in
  model_calls s' = app (model_calls s) [full] /\
  ((exists text, send (session_of s) full = Ok text /\ r = Ok text /\
      history s' = app (history s) [mkTurn "user" message (Some code) None;
                                    mkTurn "assistant" text None None] /\
      user_code s' = code)
   \/
   (exists e, send (session_of s) full = Exn e /\
      r = Ok ("An error occurred: " ++ e) /\
      history s' = app (history s)
                     [mkTurn "system" ("An error occurred: " ++ e) None (Some now)] /\
      user_code s' = user_code s)).
Proof.
  destruct s as [uc pd h si [cs|] mc];
    unfold send_message_agent, try_except, send_message_agent_body,
      bind, get, ret, modify, update_problem;
    simpl; rewrite history_context_eq; simpl;
    unfold chat_send; simpl;
    match goal with
    | |- context [send ?c ?m] => destruct (send c m) as [text|e] eqn:Hs
    end; simpl; split; try reflexivity.
  all: first [ left; exists text | right; exists e ];
    split; [exact Hs|];
    repeat split; now rewrite <- ?app_assoc.
Qed.

End Spec.
End AgentLemmas.

(** Rendering on small transcripts: the sentinel gives no code section, a
    real snapshot does, whitespace-only turns are skipped. *)
Example render_sentinel :
  get_formatted_history
    [mkTurn "user" "hi" (Some "No code provided yet.") None;
     mkTurn "assistant" "  " None None]
  = "USER: hi".
Proof. vm_compute. reflexivity. Qed.

Example render_code :
  get_formatted_history
    [mkTurn "user" "done" (Some " x = 1 ") None;
     mkTurn "assistant" "Walk me through it." None None]
  = "USER: done" ++ two_nl ++ "User Code Context:" ++ Py.nl ++ "x = 1" ++
    two_nl ++ "ASSISTANT: Walk me through it.".
Proof. vm_compute. reflexivity. Qed.

(* ------------------------------------------------------------------ *)
(** ** Claims *)

(** C4: [get_formatted_history] renders the transcript as a single string
    of ["ROLE: content"] blocks separated by one blank line, skipping
    turns with empty content; a user turn whose code snapshot is non-empty
    and not the sentinel ["No code provided yet."] gets a
    ["User Code Context:"] section with that code under the message text,
    a user turn with the sentinel gets none. *)
Theorem get_formatted_history_renders (history : list Turn) :
  get_formatted_history history = renderFormatted history.
Proof.
  unfold get_formatted_history, renderFormatted.
  destruct history as [|t h]; [reflexivity|].
  now rewrite fold_format_entry.
Qed.

(** C9 (code_bug): [get_last_n_messages] with [n = 0] slices
    [history[-0:]], i.e. [history[0:]], and returns the whole history:
    more than [n] turns. *)
Theorem get_last_n_messages_zero_returns_all :
  get_last_n_messages [mkTurn "user" "hi" (Some "") None] 0
  = [mkTurn "user" "hi" (Some "") None].
Proof. reflexivity. Qed.

(** C10: before [update_context] (no chat session), [generate_feedback_json]
    returns the fixed "Context not initialized" error string and leaves the
    agent, including its log of model calls, unchanged. *)
Theorem generate_feedback_json_uninitialized
  (generate_content : string -> string -> result string)
  (s : FeedbackAgent.t) (H : FeedbackAgent.chat_session s = None) :
  FeedbackAgent.generate_feedback_json generate_content s
  = ("Error: Context not initialized. Please call update_context first.", s).
Proof.
  unfold FeedbackAgent.generate_feedback_json. now rewrite H.
Qed.

Lemma generate_feedback_json_uninitialized_witness :
  FeedbackAgent.chat_session FeedbackAgent.init = None /\
  FeedbackAgent.generate_feedback_json (fun _ _ => Ok "{}") FeedbackAgent.init
  = ("Error: Context not initialized. Please call update_context first.",
     FeedbackAgent.init).
Proof.
  split; [reflexivity|].
  apply (generate_feedback_json_uninitialized (fun _ _ => Ok "{}")
           FeedbackAgent.init); reflexivity.
Defined.

(** C5: every call of [send_message_agent] leaves the stored history as a
    prefix of the new one (only a user and an assistant turn, or one system
    turn, are added at the end), and the temporary narrowing of
    [self.history] while the context is assembled restores the state
    exactly. *)
Theorem send_message_agent_append_only
  (send : InterviewAgent.ChatSession -> string -> result string)
  (now message code : string) (s : InterviewAgent.t) :
  snd (InterviewAgent.history_context s) = s /\
  let s' := snd (InterviewAgent.send_message_agent send now message code s) in
  exists added,
    InterviewAgent.history s' = app (InterviewAgent.history s) added /\
    ((exists text, added = [mkTurn "user" message (Some code) None;
                            mkTurn "assistant" text None None]) \/
     (exists err, added = [mkTurn "system" err None (Some now)])).
Proof.
  split; [now rewrite AgentLemmas.history_context_eq|].
  pose proof (AgentLemmas.send_message_agent_spec send now message code s) as Hs.
  cbv zeta in Hs |- *.
  destruct (InterviewAgent.send_message_agent send now message code s) as [r s'].
  destruct Hs as [_ [(text & _ & _ & Hh & _) | (e & _ & _ & Hh & _)]]; simpl.
  - eexists; split; [exact Hh|]. left; eauto.
  - eexists; split; [exact Hh|]. right; eauto.
Qed.

(** C6 (as stated): with a model client raising an exception whose text is
    ["429 RESOURCE_EXHAUSTED"], the string returned to the user is the raw
    exception text prefixed by ["An error occurred: "]. *)
Lemma send_message_agent_error_text_exposed :
  fst (InterviewAgent.send_message_agent (failing_model "429 RESOURCE_EXHAUSTED")
         now0 "What is the input size?" "" InterviewAgent.init)
  = Ok "An error occurred: 429 RESOURCE_EXHAUSTED".
Proof. vm_compute. reflexivity. Qed.

(** C6 (amended): when the model call raises an exception with text [e],
    [send_message_agent] does not propagate it and returns
    ["An error occurred: " ++ e]. *)
Theorem send_message_agent_model_error
  (send : InterviewAgent.ChatSession -> string -> result string)
  (now message code : string) (s : InterviewAgent.t) (e : string)
  (H : send (AgentFacts.session_of s)
         (AgentFacts.full_message_of (InterviewAgent.history s) message code) = Exn e) :
  fst (InterviewAgent.send_message_agent send now message code s)
  = Ok ("An error occurred: " ++ e).
Proof.
  pose proof (AgentLemmas.send_message_agent_spec send now message code s) as Hs.
  cbv zeta in Hs.
  destruct (InterviewAgent.send_message_agent send now message code s) as [r s'].
  destruct Hs as [_ [(text & Hok & _) | (e' & He & Hr & _)]]; simpl.
  - congruence.
  - rewrite H in He. injection He as <-. exact Hr.
Qed.

Lemma send_message_agent_model_error_witness :
  failing_model "timeout" (AgentFacts.session_of InterviewAgent.init)
    (AgentFacts.full_message_of [] "hi" "") = Exn "timeout" /\
  fst (InterviewAgent.send_message_agent (failing_model "timeout") now0 "hi" ""
         InterviewAgent.init) = Ok ("An error occurred: " ++ "timeout").
Proof.
  split; [reflexivity|].
  apply (send_message_agent_model_error (failing_model "timeout") now0 "hi" ""
           InterviewAgent.init "timeout").
  reflexivity.
Defined.

(** C7 (as stated): a failed model call still appends a turn to the
    transcript: the system turn carrying the error text. *)
Lemma failed_call_appends_system_turn :
  InterviewAgent.history
    (snd (InterviewAgent.send_message_agent (failing_model "boom") now0 "hello" ""
            InterviewAgent.init))
  = [mkTurn "system" "An error occurred: boom" None (Some now0)].
Proof. vm_compute. reflexivity. Qed.

(** C7 (amended): when the model call fails, no user and no assistant turn
    is appended and [user_code] is not updated; exactly one system turn with
    the error text and a timestamp is appended. *)
Theorem failed_call_records_only_error_turn
  (send : InterviewAgent.ChatSession -> string -> result string)
  (now message code : string) (s : InterviewAgent.t) (e : string)
  (H : send (AgentFacts.session_of s)
         (AgentFacts.full_message_of (InterviewAgent.history s) message code) = Exn e) :
  let s' := snd (InterviewAgent.send_message_agent send now message code s) in
  InterviewAgent.history s'
  = app (InterviewAgent.history s)
        [mkTurn "system" ("An error occurred: " ++ e) None (Some now)] /\
  InterviewAgent.user_code s' = InterviewAgent.user_code s.
Proof.
  pose proof (AgentLemmas.send_message_agent_spec send now message code s) as Hs.
  cbv zeta in Hs |- *.
  destruct (InterviewAgent.send_message_agent send now message code s) as [r s'].
  destruct Hs as [_ [(text & Hok & _) | (e' & He & _ & Hh & Hc)]]; simpl.
  - congruence.
  - rewrite H in He. injection He as <-. auto.
Qed.

Lemma failed_call_records_only_error_turn_witness :
  failing_model "boom" (AgentFacts.session_of InterviewAgent.init)
    (AgentFacts.full_message_of [] "hello" "") = Exn "boom" /\
  InterviewAgent.history
    (snd (InterviewAgent.send_message_agent (failing_model "boom") now0 "hello" ""
            InterviewAgent.init))
  = [mkTurn "system" ("An error occurred: " ++ "boom") None (Some now0)].
Proof.
  split; [reflexivity|].
  apply (failed_call_records_only_error_turn (failing_model "boom") now0 "hello" ""
           InterviewAgent.init "boom").
  reflexivity.
Defined.

Module CoordinatorLemmas.
Import Coordinator.

(** One call of the shared agent from the coordinator. *)
Lemma call_agent_spec
  (send : InterviewAgent.ChatSession -> string -> result string)
  (now message code : string) (c : Conn) :
  let full := AgentFacts.full_message_of (InterviewAgent.history (agent c)) message code in
  let r := send (AgentFacts.session_of (agent c)) full in
  let '(reply, c') := call_agent send now message code c in
  reply = reply_of r /\
  last_code_context c' = last_code_context c /\
  outbox c' = outbox c /\ tts_calls c' = tts_calls c /\
  InterviewAgent.model_calls (agent c') = app (InterviewAgent.model_calls (agent c)) [full] /\
  InterviewAgent.history (agent c')
  = app (InterviewAgent.history (agent c)) (turns_of now message code r).
Proof.
  pose proof (AgentLemmas.send_message_agent_spec send now message code (agent c)) as Hs.
  cbv zeta in Hs |- *. unfold call_agent.
  destruct (InterviewAgent.send_message_agent send now message code (agent c)) as [r s'].
  destruct Hs as [Hm [(text & Hok & Hr & Hh & _) | (e & He & Hr & Hh & _)]];
    subst r; simpl; [rewrite Hok | rewrite He]; simpl; auto 10.
Qed.

End CoordinatorLemmas.

(** C1 (as stated): once the interview has reached END (the model has said
    the END phrase and the closing string), a further final speech event
    still triggers a model call, and the reply pushed to the client is the
    model's own text, not the closing string. *)
Lemma ended_session_still_calls_model :
  option_map
    (fun c' => (Coordinator.outbox c',
                length (InterviewAgent.model_calls (Coordinator.agent c'))))
    (Coordinator.endpoint_step (constant_model "Sure, what would you like to discuss?")
       now0 (Coordinator.Received (Some (speech_final "Can we keep going?")))
       (Coordinator.connect ended_agent))
  = Some ([Coordinator.UserMessage "Can we keep going?" "speech";
           Coordinator.AiMessage "Sure, what would you like to discuss?" "response"], 1%nat).
Proof. vm_compute. reflexivity. Qed.

(** C1 (amended): the coordinator tracks no phase. Every final speech event
    with non-empty trimmed text, in any state, makes exactly one model call
    through [send_message_agent], pushes the echo and an [ai_message]
    carrying the model's reply (or the error text), and speaks that reply. *)
Theorem final_speech_always_calls_model
  (send : InterviewAgent.ChatSession -> string -> result string)
  (now : string) (c : Coordinator.Conn) (md : Coordinator.Json)
  (Htype : Coordinator.j_type md = Some "speech")
  (Hfinal : Coordinator.j_isFinal md = Some true)
  (Hne : Py.truthy (Py.strip (Coordinator.get_str (Coordinator.j_data md) "")) = true) :
  let d := Coordinator.get_str (Coordinator.j_data md) "" in
  let full := AgentFacts.full_message_of (InterviewAgent.history (Coordinator.agent c)) d
                (Coordinator.get_str (Coordinator.j_codeContext md) "") in
  let reply := reply_of (send (AgentFacts.session_of (Coordinator.agent c)) full) in
  exists c',
    Coordinator.endpoint_step send now (Coordinator.Received (Some md)) c = Some c' /\
    InterviewAgent.model_calls (Coordinator.agent c')
    = app (InterviewAgent.model_calls (Coordinator.agent c)) [full] /\
    Coordinator.outbox c' = app (Coordinator.outbox c)
      [Coordinator.UserMessage d "speech"; Coordinator.AiMessage reply "response"] /\
    Coordinator.tts_calls c' = app (Coordinator.tts_calls c)
      [Coordinator.StopAudio; Coordinator.Speak reply].
Proof.
  cbv zeta. unfold Coordinator.endpoint_step. rewrite Htype.
  unfold Coordinator.handle_speech_message. rewrite Hfinal, Hne. simpl.
  match goal with
  | |- context [Coordinator.call_agent send now ?m ?code ?c0] =>
      pose proof (CoordinatorLemmas.call_agent_spec send now m code c0) as Hc;
      cbv zeta in Hc;
      destruct (Coordinator.call_agent send now m code c0) as [reply c1]
  end.
  destruct Hc as (Hr & _ & Ho & Ht & Hm & _). simpl in *.
  eexists; split; [reflexivity|]. simpl.
  rewrite Hm, Ho, Ht, Hr. repeat split; now rewrite <- ?app_assoc.
Qed.

Lemma final_speech_always_calls_model_witness :
  exists c',
    Coordinator.endpoint_step (constant_model "Sure.") now0
      (Coordinator.Received (Some (speech_final "Can we keep going?")))
      (Coordinator.connect ended_agent) = Some c' /\
    length (InterviewAgent.model_calls (Coordinator.agent c')) = 1%nat.
Proof.
  destruct (final_speech_always_calls_model (constant_model "Sure.") now0
              (Coordinator.connect ended_agent) (speech_final "Can we keep going?")
              eq_refl eq_refl eq_refl) as (c' & Hs & Hm & _).
  exists c'. split; [exact Hs|]. rewrite Hm. reflexivity.
Defined.

(** C2 (as stated): a non-empty chat message is not sent through the reply
    pipeline (no model call, no transcript turn, no narration: it gets the
    fixed placeholder reply), and a whitespace-only final speech event is
    not dropped without effect: narration is stopped. *)
Lemma chat_and_empty_speech_counterexample :
  option_map
    (fun c' => (InterviewAgent.history (Coordinator.agent c'),
                InterviewAgent.model_calls (Coordinator.agent c'),
                Coordinator.outbox c', Coordinator.tts_calls c'))
    (Coordinator.endpoint_step (constant_model "Okay.") now0
       (Coordinator.Received (Some (chat_event "hello")))
       (Coordinator.connect InterviewAgent.init))
  = Some ([], [],
          [Coordinator.UserMessage "hello" "text";
           Coordinator.AiMessage "[AI response placeholder]" "response"], [])
  /\
  option_map Coordinator.tts_calls
    (Coordinator.endpoint_step (constant_model "Okay.") now0
       (Coordinator.Received (Some (speech_final "   ")))
       (Coordinator.connect InterviewAgent.init))
  = Some [Coordinator.StopAudio].
Proof. split; vm_compute; reflexivity. Qed.

(** C2 (amended): every event first records its [codeContext] as
    [last_code_context]. A chat event never reaches the agent or the
    narration: a non-empty trimmed message is echoed and answered with the
    fixed placeholder, an empty one produces nothing. A final speech event
    always stops narration first; then, iff its text is non-empty after
    trimming, it is echoed, sent to the model once through
    [send_message_agent] (which records the turns), and the reply is
    pushed and spoken; otherwise nothing else happens. *)
Theorem chat_and_final_speech_handling
  (send : InterviewAgent.ChatSession -> string -> result string)
  (now : string) (c : Coordinator.Conn) :
  (forall md, Coordinator.j_type md = Some "chat" ->
   let m := Coordinator.get_str (Coordinator.j_message md) "" in
   exists c',
     Coordinator.endpoint_step send now (Coordinator.Received (Some md)) c = Some c' /\
     Coordinator.last_code_context c'
     = Coordinator.get_str (Coordinator.j_codeContext md) (Coordinator.last_code_context c) /\
     Coordinator.agent c' = Coordinator.agent c /\
     Coordinator.tts_calls c' = Coordinator.tts_calls c /\
     Coordinator.outbox c' = app (Coordinator.outbox c)
       (if Py.truthy (Py.strip m)
        then [Coordinator.UserMessage m "text";
              Coordinator.AiMessage Coordinator.chat_placeholder "response"]
        else []))
  /\
  (forall md, Coordinator.j_type md = Some "speech" ->
   Coordinator.j_isFinal md = Some true ->
   let d := Coordinator.get_str (Coordinator.j_data md) "" in
   let code := Coordinator.get_str (Coordinator.j_codeContext md) "" in
   let full := AgentFacts.full_message_of (InterviewAgent.history (Coordinator.agent c)) d code in
   let r := send (AgentFacts.session_of (Coordinator.agent c)) full in
   exists c',
     Coordinator.endpoint_step send now (Coordinator.Received (Some md)) c = Some c' /\
     Coordinator.last_code_context c'
     = Coordinator.get_str (Coordinator.j_codeContext md) (Coordinator.last_code_context c) /\
     if Py.truthy (Py.strip d) then
       InterviewAgent.model_calls (Coordinator.agent c')
       = app (InterviewAgent.model_calls (Coordinator.agent c)) [full] /\
       InterviewAgent.history (Coordinator.agent c')
       = app (InterviewAgent.history (Coordinator.agent c)) (turns_of now d code r) /\
       Coordinator.outbox c' = app (Coordinator.outbox c)
         [Coordinator.UserMessage d "speech"; Coordinator.AiMessage (reply_of r) "response"] /\
       Coordinator.tts_calls c' = app (Coordinator.tts_calls c)
         [Coordinator.StopAudio; Coordinator.Speak (reply_of r)]
     else
       Coordinator.agent c' = Coordinator.agent c /\
       Coordinator.outbox c' = Coordinator.outbox c /\
       Coordinator.tts_calls c' = app (Coordinator.tts_calls c) [Coordinator.StopAudio]).
Proof.
  split.
  - intros md Htype. cbv zeta. unfold Coordinator.endpoint_step. rewrite Htype.
    unfold Coordinator.handle_chat_message. simpl.
    destruct (Py.truthy (Py.strip (Coordinator.get_str (Coordinator.j_message md) "")));
      eexists; simpl; repeat split; unfold Coordinator.push; simpl;
      now rewrite ?app_nil_r, <- ?app_assoc.
  - intros md Htype Hfinal. cbv zeta. unfold Coordinator.endpoint_step. rewrite Htype.
    unfold Coordinator.handle_speech_message. rewrite Hfinal. simpl.
    destruct (Py.truthy (Py.strip (Coordinator.get_str (Coordinator.j_data md) ""))) eqn:Hne;
      simpl.
    + match goal with
      | |- context [Coordinator.call_agent send now ?m ?code ?c0] =>
          pose proof (CoordinatorLemmas.call_agent_spec send now m code c0) as Hc;
          cbv zeta in Hc;
          destruct (Coordinator.call_agent send now m code c0) as [reply c1]
      end.
      destruct Hc as (Hr & Hl & Ho & Ht & Hm & Hh). simpl in *.
      eexists; split; [reflexivity|]. simpl.
      rewrite Hl, Hm, Hh, Ho, Ht, Hr. repeat split; now rewrite <- ?app_assoc.
    + eexists; split; [reflexivity|]. simpl. repeat split.
Qed.

Lemma chat_and_final_speech_handling_witness :
  exists c',
    Coordinator.endpoint_step (constant_model "Okay.") now0
      (Coordinator.Received (Some (chat_event "hello")))
      (Coordinator.connect InterviewAgent.init) = Some c' /\
    Coordinator.agent c' = InterviewAgent.init.
Proof.
  destruct (proj1 (chat_and_final_speech_handling (constant_model "Okay.") now0
                     (Coordinator.connect InterviewAgent.init))
              (chat_event "hello") eq_refl) as (c' & Hs & _ & Ha & _).
  exists c'. split; [exact Hs | exact Ha].
Defined.

(** C8 (as stated): the idle nudge is not recorded as a distinguished,
    system-originated prompt: it enters the transcript as a [user] turn,
    indistinguishable from something the candidate said. *)
Lemma idle_nudge_recorded_as_user_turn :
  option_map (fun c' => InterviewAgent.history (Coordinator.agent c'))
    (Coordinator.endpoint_step (constant_model "What data structure gives fast lookups?")
       now0 Coordinator.IdleTimeout (Coordinator.connect InterviewAgent.init))
  = Some [mkTurn "user" Coordinator.nudge_prompt (Some "") None;
          mkTurn "assistant" "What data structure gives fast lookups?" None None].
Proof. vm_compute. reflexivity. Qed.

(** C8 (amended): on an idle timeout, with no phase check, the coordinator
    makes exactly one model call through [send_message_agent] with the fixed
    nudge prompt as the message and the last code context; the transcript
    records the nudge prompt as a [user] turn followed by the reply (or one
    system turn if the call fails); nothing is echoed to the client; the
    reply is pushed as an [ai_message] of type [hint] and spoken; the loop
    goes on waiting. *)
Theorem idle_timeout_nudge
  (send : InterviewAgent.ChatSession -> string -> result string)
  (now : string) (c : Coordinator.Conn) :
  let code := Coordinator.last_code_context c in
  let full := AgentFacts.full_message_of (InterviewAgent.history (Coordinator.agent c))
                Coordinator.nudge_prompt code in
  let r := send (AgentFacts.session_of (Coordinator.agent c)) full in
  exists c',
    Coordinator.endpoint_step send now Coordinator.IdleTimeout c = Some c' /\
    Coordinator.last_code_context c' = code /\
    InterviewAgent.model_calls (Coordinator.agent c')
    = app (InterviewAgent.model_calls (Coordinator.agent c)) [full] /\
    InterviewAgent.history (Coordinator.agent c')
    = app (InterviewAgent.history (Coordinator.agent c))
          (turns_of now Coordinator.nudge_prompt code r) /\
    Coordinator.outbox c' = app (Coordinator.outbox c) [Coordinator.AiMessage (reply_of r) "hint"] /\
    Coordinator.tts_calls c' = app (Coordinator.tts_calls c) [Coordinator.Speak (reply_of r)].
Proof.
  cbv zeta. unfold Coordinator.endpoint_step.
  pose proof (CoordinatorLemmas.call_agent_spec send now Coordinator.nudge_prompt
                (Coordinator.last_code_context c) c) as Hc.
  cbv zeta in Hc.
  destruct (Coordinator.call_agent send now Coordinator.nudge_prompt
              (Coordinator.last_code_context c) c) as [reply c1].
  destruct Hc as (Hr & Hl & Ho & Ht & Hm & Hh).
  eexists; split; [reflexivity|]. simpl.
  rewrite Hl, Hm, Hh, Ho, Ht, Hr. repeat split.
Qed.

Module NarrationLemmas.
Import Narration.

Lemma set_worker_length (i : nat) (w : worker) (ws : list worker) :
  (i < length ws)%nat -> length (set_worker i w ws) = length ws.
Proof.
  intros Hi. unfold set_worker.
  rewrite length_app, length_firstn. cbn [length]. rewrite length_skipn. lia.
Qed.

Section Steps.
Variable synth : string -> list nat.

(** The device log only grows. *)
Lemma bg_steps_log (g g' : G) :
  bg_steps synth g g' -> exists l, dev_log g' = app (dev_log g) l.
Proof.
  induction 1 as [g|g1 g2 g3 H12 _ (l & Hd)].
  - exists []. now rewrite app_nil_r.
  - rewrite Hd. destruct H12 as [i g g' Hw|g x _].
    + destruct Hw; simpl;
        first [ exists l; reflexivity
              | eexists; rewrite <- app_assoc; reflexivity ].
    + exists l. reflexivity.
Qed.

End Steps.
End NarrationLemmas.

Module NarrationRun.
Import Narration.

Lemma stop_now_ok (synth : string -> list nat) (g : G) :
  stop_audio synth g (stop_now g).
Proof.
  exact (stop_audio_run synth g (set_flag g) (dev_stop (set_flag g))
           (bg_refl _ _) (bg_refl _ _)).
Qed.

Lemma speak_now_ok (synth : string -> list nat) (text : string) (g : G) :
  pipeline g = true ->
  speak synth text g (new_thread text Start (clear_flag (stop_now g))) true.
Proof.
  intros Hp.
  exact (speak_start synth text g (stop_now g) (clear_flag (stop_now g)) Hp
           (stop_now_ok synth g) (bg_refl _ _)).
Qed.

(** [speak("A")]; thread A runs [_is_playing = True] and calls the pipeline;
    [speak("B")], whose join times out while A synthesises its first chunk;
    thread A finds the flag cleared and plays that chunk. *)
Lemma reach_speak_A_then_B : reachable two_chunks speak_A_then_B.
Proof.
  set (gA := new_thread "A" Start (clear_flag (stop_now tts_initialized))).
  assert (HA : reachable two_chunks gA).
  { apply (reach_step _ tts_initialized); [exact (reach_init two_chunks true)|].
    exact (sys_speak _ "A" _ _ true (speak_now_ok two_chunks "A" tts_initialized eq_refl)). }
  set (gA1 := with_worker gA 0 (mkWorker "A" Init) true (stream gA) (dev_log gA)).
  assert (HA1 : reachable two_chunks gA1).
  { apply (reach_step _ gA); [exact HA|].
    exact (sys_bg _ _ _ (bg_worker _ 0 _ _ (ws_start two_chunks 0 gA "A" eq_refl))). }
  set (gA2 := with_worker gA1 0 (mkWorker "A" (Gen (two_chunks "A")))
                (is_playing gA1) (stream gA1) (dev_log gA1)).
  assert (HA2 : reachable two_chunks gA2).
  { apply (reach_step _ gA1); [exact HA1|].
    exact (sys_bg _ _ _ (bg_worker _ 0 _ _ (ws_init two_chunks 0 gA1 "A" eq_refl eq_refl))). }
  set (gB := new_thread "B" Start (clear_flag (stop_now gA2))).
  assert (HB : reachable two_chunks gB).
  { apply (reach_step _ gA2); [exact HA2|].
    exact (sys_speak _ "B" _ _ true (speak_now_ok two_chunks "B" gA2 eq_refl)). }
  set (gB1 := with_worker gB 0 (mkWorker "A" (Play 7 [8])) (is_playing gB)
                (stream gB) (dev_log gB)).
  assert (HB1 : reachable two_chunks gB1).
  { apply (reach_step _ gB); [exact HB|].
    exact (sys_bg _ _ _ (bg_worker _ 0 _ _
             (ws_gen_pass two_chunks 0 gB "A" 7 [8] eq_refl eq_refl))). }
  apply (reach_step _ gB1); [exact HB1|].
  exact (sys_bg _ _ _ (bg_worker _ 0 _ _ (ws_play two_chunks 0 gB1 "A" 7 [8] eq_refl))).
Qed.

End NarrationRun.

(** C3 (code bug): [speak(A)] then [speak(B)] can leave two playback
    threads alive, with [_current_playback_thread] B's, and A's thread can
    still send audio to the device after B was requested: the join in
    [stop_audio] times out while A's thread is synthesising, [speak] clears
    the shared stop flag and starts B's thread anyway, and A's thread, at
    its next stop check, finds the flag cleared and plays its chunk. *)
Lemma two_playback_threads_alive :
  exists g,
    Narration.reachable two_chunks g /\
    Narration.alive_count g = 2%nat /\
    Narration.current g = Some 1%nat /\
    map Narration.w_text (Narration.workers g) = ["A"; "B"] /\
    last (Narration.dev_log g) Narration.DevStop = Narration.DevPlay 0 7.
Proof.
  exists speak_A_then_B. split; [exact NarrationRun.reach_speak_A_then_B|].
  repeat split.
Qed.

(* ------------------------------------------------------------------ *)
(** ** Further properties of the code *)

Module ExtraLemmas.

Lemma string_append_assoc (a b c : string) : (a ++ b) ++ c = a ++ (b ++ c).
Proof. induction a as [|x a IH]; simpl; [reflexivity | now rewrite IH]. Qed.

Lemma join_cons (sep x : string) (l : list string) :
  l <> [] -> Py.join sep (x :: l) = x ++ sep ++ Py.join sep l.
Proof. destruct l; [congruence | reflexivity]. Qed.

Lemma join_app (sep : string) (l1 l2 : list string) :
  l1 <> [] -> l2 <> [] ->
  Py.join sep (app l1 l2) = Py.join sep l1 ++ sep ++ Py.join sep l2.
Proof.
  intros H1 H2. induction l1 as [|x l1 IH]; [congruence|].
  destruct l1 as [|y r].
  - simpl app. now apply join_cons.
  - rewrite <- app_comm_cons, join_cons by (simpl; discriminate).
    rewrite IH by discriminate.
    rewrite (join_cons sep x (y :: r)) by discriminate.
    now rewrite !string_append_assoc.
Qed.

Lemma join_snoc (sep x : string) (l : list string) :
  l <> [] -> Py.join sep (app l [x]) = Py.join sep l ++ sep ++ x.
Proof. intros H. apply (join_app sep l [x] H). discriminate. Qed.

Lemma get_formatted_history_blocks (h : list Turn) :
  get_formatted_history h = Py.join two_nl (map rendered_block (filter has_content h)).
Proof.
  unfold get_formatted_history. destruct h as [|t h]; [reflexivity|].
  now rewrite fold_format_entry.
Qed.

Lemma get_last_n_messages_of_app (pre h : list Turn) (n : Z) :
  (1 <= n)%Z -> length h = Z.to_nat n ->
  get_last_n_messages (app pre h) n = h.
Proof.
  intros Hn Hl. unfold get_last_n_messages, Py.slice_from.
  rewrite length_app.
  replace (n <=? Z.of_nat (length pre + length h))%Z with true by (symmetry; apply Z.leb_le; lia).
  replace (- n <? 0)%Z with true by (symmetry; apply Z.ltb_lt; lia).
  replace (Z.to_nat (Z.max 0 (Z.of_nat (length pre + length h) + - n))) with (length pre) by lia.
  now rewrite skipn_app, skipn_all, Nat.sub_diag.
Qed.

End ExtraLemmas.

(** get_last_n_messages returns a contiguous tail of the history, in the
    original order, for every [n]. *)
Theorem get_last_n_messages_suffix (history : list Turn) (n : Z) :
  exists dropped, app dropped (get_last_n_messages history n) = history.
Proof.
  unfold get_last_n_messages, Py.slice_from.
  destruct (n <=? Z.of_nat (length history))%Z; [|exists []; reflexivity].
  destruct (- n <? 0)%Z; eexists; apply firstn_skipn.
Qed.

(** For [n >= 1], get_last_n_messages returns [min(n, len(history))]
    turns; with the previous property, the last ones. *)
Theorem get_last_n_messages_length (history : list Turn) (n : Z) (Hn : (1 <= n)%Z) :
  length (get_last_n_messages history n) = Nat.min (Z.to_nat n) (length history).
Proof.
  unfold get_last_n_messages, Py.slice_from.
  destruct (n <=? Z.of_nat (length history))%Z eqn:Hle.
  - apply Z.leb_le in Hle.
    replace (- n <? 0)%Z with true by (symmetry; apply Z.ltb_lt; lia).
    rewrite length_skipn. lia.
  - apply Z.leb_gt in Hle. lia.
Qed.

Lemma get_last_n_messages_length_witness :
  (1 <= 2)%Z /\
  length (get_last_n_messages [mkTurn "user" "a" None None; mkTurn "assistant" "b" None None;
                               mkTurn "user" "c" None None] 2) = 2%nat.
Proof.
  split; [lia|].
  rewrite (get_last_n_messages_length _ 2); [reflexivity | lia].
Defined.

(** For a negative [n], get_last_n_messages drops the first [-n] turns
    ([history[-n:]] with [-n > 0]) instead of returning at most [n]. *)
Theorem get_last_n_messages_negative (history : list Turn) (n : Z) (Hn : (n < 0)%Z) :
  get_last_n_messages history n = skipn (Z.to_nat (- n)) history.
Proof.
  unfold get_last_n_messages, Py.slice_from.
  replace (n <=? Z.of_nat (length history))%Z with true by (symmetry; apply Z.leb_le; lia).
  replace (- n <? 0)%Z with false by (symmetry; apply Z.ltb_ge; lia).
  reflexivity.
Qed.

Lemma get_last_n_messages_negative_witness :
  (-1 < 0)%Z /\
  get_last_n_messages [mkTurn "user" "a" None None; mkTurn "assistant" "b" None None] (-1)
  = [mkTurn "assistant" "b" None None].
Proof.
  split; [lia|].
  rewrite (get_last_n_messages_negative _ (-1)); [reflexivity | lia].
Defined.

(** The context sent to the model depends on the last five turns only:
    turns before them never reach the model again. *)
Theorem full_message_uses_last_five (older recent : list Turn) (message code : string)
  (H : length recent = 5%nat) :
  AgentFacts.full_message_of (app older recent) message code
  = AgentFacts.full_message_of recent message code.
Proof.
  assert (Ha : get_last_n_messages (app older recent) 5 = recent)
    by (apply ExtraLemmas.get_last_n_messages_of_app; [lia | exact H]).
  assert (Hb : get_last_n_messages recent 5 = recent)
    by (apply (ExtraLemmas.get_last_n_messages_of_app [] recent 5); [lia | exact H]).
  unfold AgentFacts.full_message_of, AgentFacts.history_parts.
  rewrite Ha, Hb.
  destruct recent as [|t r]; [discriminate|].
  destruct older; reflexivity.
Qed.

Lemma full_message_uses_last_five_witness :
  length (map (fun x => mkTurn "user" x None None) ["1"; "2"; "3"; "4"; "5"]) = 5%nat /\
  AgentFacts.full_message_of
    (app [mkTurn "user" "0" None None] (map (fun x => mkTurn "user" x None None) ["1"; "2"; "3"; "4"; "5"]))
    "hi" ""
  = AgentFacts.full_message_of (map (fun x => mkTurn "user" x None None) ["1"; "2"; "3"; "4"; "5"]) "hi" "".
Proof.
  split; [reflexivity|]. apply full_message_uses_last_five. reflexivity.
Defined.

Module ExtraLemmas2.
Import InterviewAgent AgentFacts.

(** The agent after [send_message_agent], field by field. *)
Section State.
Variable send : ChatSession -> string -> result string.
Variable now : string.

Lemma send_message_agent_state (message code : string) (s : InterviewAgent.t) :
  let full := full_message_of (history s) message code in
  let pd1 := match chat_session s with
             | None => "No problem provided yet" | Some _ => problem_description s end in
  let si1 := match chat_session s with
             | None => Some (format_interview_system_prompt "No problem provided yet")
             | Some _ => system_instruction s end in
  snd (send_message_agent send now message code s)
  = match send (session_of s) full with
    | Ok text =>
        mkAgent code pd1
          (app (history s) [mkTurn "user" message (Some code) None;
                            mkTurn "assistant" text None None]) si1
          (Some (mkChatSession (cs_system_instruction (session_of s))
                   (app (cs_history (session_of s)) [(full, text)])))
          (app (model_calls s) [full])
    | Exn e =>
        mkAgent (user_code s) pd1
          (app (history s) [mkTurn "system" ("An error occurred: " ++ e) None (Some now)])
          si1 (Some (session_of s)) (app (model_calls s) [full])
    end.
Proof.
  cbv zeta; unfold full_message_of, session_of.
  destruct s as [uc pd h si [cs|] mc];
    unfold send_message_agent, try_except, send_message_agent_body,
      bind, get, ret, modify, update_problem;
    simpl; rewrite AgentLemmas.history_context_eq; simpl;
    unfold chat_send; simpl;
    match goal with
    | |- context [send ?c ?m] => destruct (send c m)
    end; simpl; now rewrite <- ?app_assoc.
Qed.
End State.

End ExtraLemmas2.

(** When the code context is non-empty and, once stripped, not the
    sentinel, the message sent to the model ends with a
    "Current User Code:" block holding the code as received (unstripped). *)
Theorem full_message_ends_with_code (history : list Turn) (message code : string)
  (Ht : Py.truthy code = true)
  (Hs : String.eqb (Py.strip code) no_code_sentinel = false) :
  exists before, AgentFacts.full_message_of history message code
                 = before ++ ("Current User Code:" ++ Py.nl ++ code).
Proof.
  unfold AgentFacts.full_message_of. rewrite Ht, Hs. simpl.
  destruct (AgentFacts.history_parts history) as [|p ps] eqn:E; simpl app.
  - exists (message ++ two_nl). now rewrite ExtraLemmas.string_append_assoc.
  - rewrite (app_comm_cons ps), ExtraLemmas.join_snoc by discriminate.
    exists (message ++ two_nl ++ Py.join two_nl (p :: ps) ++ two_nl).
    now rewrite !ExtraLemmas.string_append_assoc.
Qed.

Lemma full_message_ends_with_code_witness :
  Py.truthy "x = 1" = true /\
  String.eqb (Py.strip "x = 1") no_code_sentinel = false /\
  exists before, AgentFacts.full_message_of [] "hi" "x = 1"
                 = before ++ ("Current User Code:" ++ Py.nl ++ "x = 1").
Proof.
  split; [reflexivity|]. split; [reflexivity|].
  apply full_message_ends_with_code; reflexivity.
Defined.

(** A turn whose content is blank after stripping contributes nothing to
    get_formatted_history, wherever it sits in the history. *)
Theorem get_formatted_history_skips_blank (h1 h2 : list Turn) (t : Turn)
  (H : Py.strip (content t) = "") :
  get_formatted_history (app h1 (t :: h2)) = get_formatted_history (app h1 h2).
Proof.
  rewrite !ExtraLemmas.get_formatted_history_blocks, !filter_app. simpl.
  unfold has_content at 2. rewrite H. reflexivity.
Qed.

Lemma get_formatted_history_skips_blank_witness :
  Py.strip (content (mkTurn "assistant" "  " None None)) = "" /\
  get_formatted_history (app [mkTurn "user" "a" None None]
                             (mkTurn "assistant" "  " None None :: []))
  = get_formatted_history (app [mkTurn "user" "a" None None] []).
Proof.
  assert (H : Py.strip (content (mkTurn "assistant" "  " None None)) = "")
    by (vm_compute; reflexivity).
  split; [exact H|]. exact (get_formatted_history_skips_blank _ _ _ H).
Defined.

(** Rendering is incremental: the rendering of a history extended by more
    turns is the old rendering, a blank line, and the rendering of the new
    turns (when both are non-empty). *)
Theorem get_formatted_history_app (h1 h2 : list Turn)
  (H1 : get_formatted_history h1 <> "") (H2 : get_formatted_history h2 <> "") :
  get_formatted_history (app h1 h2)
  = get_formatted_history h1 ++ two_nl ++ get_formatted_history h2.
Proof.
  rewrite !ExtraLemmas.get_formatted_history_blocks in *.
  rewrite filter_app, map_app.
  apply ExtraLemmas.join_app.
  - intros E. apply H1. now rewrite E.
  - intros E. apply H2. now rewrite E.
Qed.

Lemma get_formatted_history_app_witness :
  get_formatted_history [mkTurn "user" "a" None None] <> "" /\
  get_formatted_history [mkTurn "assistant" "b" None None] <> "" /\
  get_formatted_history [mkTurn "user" "a" None None; mkTurn "assistant" "b" None None]
  = "USER: a" ++ two_nl ++ "ASSISTANT: b".
Proof.
  assert (H1 : get_formatted_history [mkTurn "user" "a" None None] <> "")
    by (vm_compute; discriminate).
  assert (H2 : get_formatted_history [mkTurn "assistant" "b" None None] <> "")
    by (vm_compute; discriminate).
  split; [exact H1|]. split; [exact H2|].
  exact (get_formatted_history_app [mkTurn "user" "a" None None]
           [mkTurn "assistant" "b" None None] H1 H2).
Defined.

(** [send_message_agent] creates the chat session lazily: afterwards the
    agent always has one, even when the model call failed. If there was
    none, the problem becomes "No problem provided yet" and the system
    instruction is the interview prompt for it; an existing session keeps
    the problem and the system instruction as they were. *)
Theorem send_message_agent_initialises_session
  (send : InterviewAgent.ChatSession -> string -> result string)
  (now message code : string) (s : InterviewAgent.t) :
  let s' := snd (InterviewAgent.send_message_agent send now message code s) in
  (exists cs, InterviewAgent.chat_session s' = Some cs) /\
  InterviewAgent.problem_description s'
  = match InterviewAgent.chat_session s with
    | None => "No problem provided yet"
    | Some _ => InterviewAgent.problem_description s
    end /\
  InterviewAgent.system_instruction s'
  = match InterviewAgent.chat_session s with
    | None => Some (format_interview_system_prompt "No problem provided yet")
    | Some _ => InterviewAgent.system_instruction s
    end.
Proof.
  cbv zeta. rewrite ExtraLemmas2.send_message_agent_state.
  destruct (send _ _); simpl; (split; [eexists; reflexivity | split; reflexivity]).
Qed.

(** The model's own chat history and the stored transcript diverge: on
    success the chat object records the exchange with the full message
    (problem context, previous conversation and code included), while
    [self.history] records the bare message; on failure the chat object is
    left as it was. *)
Theorem send_message_agent_model_history
  (send : InterviewAgent.ChatSession -> string -> result string)
  (now message code : string) (s : InterviewAgent.t) :
  let full := AgentFacts.full_message_of (InterviewAgent.history s) message code in
  let s' := snd (InterviewAgent.send_message_agent send now message code s) in
  InterviewAgent.chat_session s'
  = Some (match send (AgentFacts.session_of s) full with
          | Ok text =>
              InterviewAgent.mkChatSession
                (InterviewAgent.cs_system_instruction (AgentFacts.session_of s))
                (app (InterviewAgent.cs_history (AgentFacts.session_of s)) [(full, text)])
          | Exn _ => AgentFacts.session_of s
          end) /\
  (forall text, send (AgentFacts.session_of s) full = Ok text ->
     nth_error (InterviewAgent.history s') (length (InterviewAgent.history s))
     = Some (mkTurn "user" message (Some code) None)).
Proof.
  cbv zeta. rewrite ExtraLemmas2.send_message_agent_state.
  split.
  - destruct (send _ _); reflexivity.
  - intros text Ht. rewrite Ht. simpl.
    rewrite nth_error_app2, Nat.sub_diag by lia. reflexivity.
Qed.

(** Selecting a problem mid-interview (problems.py calls [update_problem])
    starts a fresh model chat under the new problem's prompt but keeps the
    stored transcript: the next message sent to the model still carries the
    previous problem's conversation, and the problem is not reset. *)
Theorem update_problem_keeps_transcript
  (send : InterviewAgent.ChatSession -> string -> result string)
  (now message code d : string) (s : InterviewAgent.t) :
  let s1 := snd (InterviewAgent.update_problem (Some d) s) in
  let s2 := snd (InterviewAgent.send_message_agent send now message code s1) in
  AgentFacts.session_of s1
  = InterviewAgent.mkChatSession (format_interview_system_prompt d) [] /\
  InterviewAgent.history s1 = InterviewAgent.history s /\
  InterviewAgent.model_calls s2
  = app (InterviewAgent.model_calls s)
        [AgentFacts.full_message_of (InterviewAgent.history s) message code] /\
  InterviewAgent.problem_description s2 = d.
Proof.
  cbv zeta. rewrite ExtraLemmas2.send_message_agent_state.
  destruct s; simpl.
  split; [reflexivity|]. split; [reflexivity|].
  destruct (send _ _); split; reflexivity.
Qed.

Module ExtraLemmas3.
Import Coordinator.

(** The speech and chat handlers never touch [last_code_context]. *)
Lemma handle_speech_message_code_context
  (send : InterviewAgent.ChatSession -> string -> result string)
  (now : string) (md : Json) (c : Conn) :
  last_code_context (handle_speech_message send now md c) = last_code_context c.
Proof.
  unfold handle_speech_message.
  destruct (andb _ _).
  - pose proof (CoordinatorLemmas.call_agent_spec send now
                  (get_str (j_data md) "") (get_str (j_codeContext md) "")
                  (push (UserMessage (get_str (j_data md) "") "speech") (tts StopAudio c)))
      as Hc.
    cbv zeta in Hc.
    destruct (call_agent send now _ _ _) as [reply c1].
    destruct Hc as (_ & Hl & _). simpl. exact Hl.
  - destruct (negb _); reflexivity.
Qed.

Lemma handle_chat_message_code_context (md : Json) (c : Conn) :
  last_code_context (handle_chat_message md c) = last_code_context c.
Proof. unfold handle_chat_message. destruct (Py.truthy _); reflexivity. Qed.

End ExtraLemmas3.

(** A non-final speech event (isFinal false or absent) stops the narration
    and echoes the partial transcript as an [interim_speech] event, even
    when it is empty; the agent is not called. *)
Theorem endpoint_interim_speech
  (send : InterviewAgent.ChatSession -> string -> result string)
  (now : string) (c : Coordinator.Conn) (md : Coordinator.Json)
  (Htype : Coordinator.j_type md = Some "speech")
  (Hinterim : Coordinator.j_isFinal md <> Some true) :
  Coordinator.endpoint_step send now (Coordinator.Received (Some md)) c
  = Some (Coordinator.mkConn (Coordinator.agent c)
            (Coordinator.get_str (Coordinator.j_codeContext md) (Coordinator.last_code_context c))
            (app (Coordinator.outbox c)
                 [Coordinator.InterimSpeech (Coordinator.get_str (Coordinator.j_data md) "")])
            (app (Coordinator.tts_calls c) [Coordinator.StopAudio])).
Proof.
  unfold Coordinator.endpoint_step. rewrite Htype.
  unfold Coordinator.handle_speech_message.
  destruct (Coordinator.j_isFinal md) as [[|]|]; [congruence | reflexivity | reflexivity].
Qed.

Lemma endpoint_interim_speech_witness :
  Coordinator.j_type (Coordinator.mkJson (Some "speech") (Some "I think") (Some false) None None)
  = Some "speech" /\
  Coordinator.j_isFinal (Coordinator.mkJson (Some "speech") (Some "I think") (Some false) None None)
  <> Some true /\
  Coordinator.endpoint_step (constant_model "ok") now0
    (Coordinator.Received (Some (Coordinator.mkJson (Some "speech") (Some "I think")
                                   (Some false) None None)))
    (Coordinator.connect ended_agent)
  = Some (Coordinator.mkConn ended_agent "" [Coordinator.InterimSpeech "I think"]
            [Coordinator.StopAudio]).
Proof.
  assert (Hf : Coordinator.j_isFinal
                 (Coordinator.mkJson (Some "speech") (Some "I think") (Some false) None None)
               <> Some true) by discriminate.
  split; [reflexivity|]. split; [exact Hf|].
  exact (endpoint_interim_speech (constant_model "ok") now0 (Coordinator.connect ended_agent)
           (Coordinator.mkJson (Some "speech") (Some "I think") (Some false) None None)
           eq_refl Hf).
Defined.

(** An event whose type is neither "speech" nor "chat" (a "ping", an
    unknown type, or no type at all) neither calls the agent nor touches the
    narration: a "ping" is answered by one "pong", anything else by nothing;
    only the remembered code context is updated. *)
Theorem endpoint_other_events
  (send : InterviewAgent.ChatSession -> string -> result string)
  (now : string) (c : Coordinator.Conn) (md : Coordinator.Json)
  (Hs : Coordinator.j_type md <> Some "speech")
  (Hc : Coordinator.j_type md <> Some "chat") :
  Coordinator.endpoint_step send now (Coordinator.Received (Some md)) c
  = Some (Coordinator.mkConn (Coordinator.agent c)
            (Coordinator.get_str (Coordinator.j_codeContext md) (Coordinator.last_code_context c))
            (app (Coordinator.outbox c)
                 (if String.eqb (Coordinator.get_str (Coordinator.j_type md) "") "ping"
                  then [Coordinator.Pong] else []))
            (Coordinator.tts_calls c)).
Proof.
  unfold Coordinator.endpoint_step.
  destruct (Coordinator.j_type md) as [ty|]; [|simpl; now rewrite app_nil_r].
  assert (Hs' : String.eqb ty "speech" = false)
    by (apply String.eqb_neq; congruence).
  assert (Hc' : String.eqb ty "chat" = false)
    by (apply String.eqb_neq; congruence).
  clear Hs Hc. simpl.
  repeat (match goal with
          | |- context [match ?x with _ => _ end] => is_var x; destruct x
          end; simpl in *);
  first [discriminate | reflexivity | now rewrite app_nil_r].
Qed.

Lemma endpoint_other_events_witness :
  Coordinator.j_type (Coordinator.mkJson (Some "ping") None None None (Some "x = 1"))
  <> Some "speech" /\
  Coordinator.j_type (Coordinator.mkJson (Some "ping") None None None (Some "x = 1"))
  <> Some "chat" /\
  Coordinator.endpoint_step (constant_model "ok") now0
    (Coordinator.Received (Some (Coordinator.mkJson (Some "ping") None None None (Some "x = 1"))))
    (Coordinator.connect ended_agent)
  = Some (Coordinator.mkConn ended_agent "x = 1" [Coordinator.Pong] []).
Proof.
  assert (H1 : Coordinator.j_type (Coordinator.mkJson (Some "ping") None None None (Some "x = 1"))
               <> Some "speech") by discriminate.
  assert (H2 : Coordinator.j_type (Coordinator.mkJson (Some "ping") None None None (Some "x = 1"))
               <> Some "chat") by discriminate.
  split; [exact H1|]. split; [exact H2|].
  exact (endpoint_other_events (constant_model "ok") now0 (Coordinator.connect ended_agent)
           (Coordinator.mkJson (Some "ping") None None None (Some "x = 1")) H1 H2).
Defined.

(** The code snapshot carried by any event (of whatever type) is what the
    next idle-timeout nudge sends to the model: an event with a
    "codeContext" key followed by 30 seconds of silence makes one model call
    whose message is built from that code. *)
Theorem idle_nudge_uses_last_event_code
  (send : InterviewAgent.ChatSession -> string -> result string)
  (now : string) (c c1 : Coordinator.Conn) (md : Coordinator.Json) (code : string)
  (Hstep : Coordinator.endpoint_step send now (Coordinator.Received (Some md)) c = Some c1)
  (Hcode : Coordinator.j_codeContext md = Some code) :
  exists c2,
    Coordinator.endpoint_step send now Coordinator.IdleTimeout c1 = Some c2 /\
    InterviewAgent.model_calls (Coordinator.agent c2)
    = app (InterviewAgent.model_calls (Coordinator.agent c1))
          [AgentFacts.full_message_of (InterviewAgent.history (Coordinator.agent c1))
             Coordinator.nudge_prompt code].
Proof.
  assert (Hl : Coordinator.last_code_context c1 = code).
  { revert Hstep. unfold Coordinator.endpoint_step. rewrite Hcode. simpl.
    destruct (Coordinator.j_type md) as [ty|];
      [|intros E; injection E as <-; reflexivity].
    repeat (match goal with
            | |- context [match ?x with _ => _ end] => is_var x; destruct x
            end; simpl in *);
    intros E; injection E as <-;
    first [ rewrite ExtraLemmas3.handle_speech_message_code_context; reflexivity
          | rewrite ExtraLemmas3.handle_chat_message_code_context; reflexivity
          | reflexivity ]. }
  unfold Coordinator.endpoint_step.
  pose proof (CoordinatorLemmas.call_agent_spec send now Coordinator.nudge_prompt
                (Coordinator.last_code_context c1) c1) as Hc.
  cbv zeta in Hc.
  destruct (Coordinator.call_agent send now Coordinator.nudge_prompt
              (Coordinator.last_code_context c1) c1) as [reply c2].
  destruct Hc as (_ & _ & _ & _ & Hm & _).
  eexists; split; [reflexivity|]. simpl. rewrite Hm, Hl. reflexivity.
Qed.

Lemma idle_nudge_uses_last_event_code_witness :
  Coordinator.endpoint_step (constant_model "ok") now0
    (Coordinator.Received (Some (Coordinator.mkJson None None None None (Some "x = 1"))))
    (Coordinator.connect ended_agent)
  = Some (Coordinator.mkConn ended_agent "x = 1" [] []) /\
  Coordinator.j_codeContext (Coordinator.mkJson None None None None (Some "x = 1")) = Some "x = 1" /\
  exists c2,
    Coordinator.endpoint_step (constant_model "ok") now0 Coordinator.IdleTimeout
      (Coordinator.mkConn ended_agent "x = 1" [] []) = Some c2 /\
    InterviewAgent.model_calls (Coordinator.agent c2)
    = app (InterviewAgent.model_calls ended_agent)
          [AgentFacts.full_message_of (InterviewAgent.history ended_agent)
             Coordinator.nudge_prompt "x = 1"].
Proof.
  assert (H : Coordinator.endpoint_step (constant_model "ok") now0
    (Coordinator.Received (Some (Coordinator.mkJson None None None None (Some "x = 1"))))
    (Coordinator.connect ended_agent)
    = Some (Coordinator.mkConn ended_agent "x = 1" [] [])) by reflexivity.
  split; [exact H|]. split; [reflexivity|].
  exact (idle_nudge_uses_last_event_code (constant_model "ok") now0
           (Coordinator.connect ended_agent) (Coordinator.mkConn ended_agent "x = 1" [] [])
           (Coordinator.mkJson None None None None (Some "x = 1")) "x = 1" H eq_refl).
Defined.

Module ManagerLemmas.
Import ConnectionManager.

Section Dict.
Variable WebSocket : Type.

Lemma dict_get_set_same (d : list (string * WebSocket)) (k : string) (v : WebSocket) :
  dict_get WebSocket (dict_set WebSocket d k v) k = Some v.
Proof.
  induction d as [|[k' v'] r IH]; simpl.
  - now rewrite String.eqb_refl.
  - destruct (String.eqb_spec k' k); simpl.
    + subst. now rewrite String.eqb_refl.
    + destruct (String.eqb_spec k' k); [congruence | exact IH].
Qed.

Lemma dict_set_keys (d : list (string * WebSocket)) (k : string) (v : WebSocket) :
  map fst (dict_set WebSocket d k v)
  = if In_dec String.string_dec k (map fst d) then map fst d else app (map fst d) [k].
Proof.
  induction d as [|[k' v'] r IH]; simpl; [reflexivity|].
  destruct (String.eqb_spec k' k) as [E|E]; simpl.
  - subst. destruct (String.string_dec k k); [reflexivity | congruence].
  - rewrite IH. destruct (String.string_dec k' k); [congruence|].
    destruct (In_dec String.string_dec k (map fst r)); reflexivity.
Qed.

Lemma dict_get_del_nodup (d : list (string * WebSocket)) (k : string) :
  NoDup (map fst d) -> dict_get WebSocket (dict_del WebSocket d k) k = None.
Proof.
  induction d as [|[k' v'] r IH]; simpl; intros Hn; [reflexivity|].
  inversion Hn as [|? ? Hnin Hr]; subst.
  destruct (String.eqb_spec k' k) as [E|E].
  - subst. clear IH Hn Hr. induction r as [|[k2 v2] r IH2]; simpl; [reflexivity|].
    simpl in Hnin. destruct (String.eqb_spec k2 k); [subst; tauto|]. apply IH2. tauto.
  - simpl. destruct (String.eqb_spec k' k); [congruence|]. now apply IH.
Qed.

Lemma dict_get_set_other (d : list (string * WebSocket)) (k x : string) (v : WebSocket) :
  x <> k -> dict_get WebSocket (dict_set WebSocket d k v) x = dict_get WebSocket d x.
Proof.
  intros Hne. induction d as [|[k' v'] r IH]; simpl.
  - destruct (String.eqb_spec k x); [congruence | reflexivity].
  - destruct (String.eqb_spec k' k) as [->|E]; simpl.
    + destruct (String.eqb_spec k x); [congruence | reflexivity].
    + destruct (String.eqb k' x); [reflexivity | exact IH].
Qed.

End Dict.
End ManagerLemmas.

(** A message sent to a client right after it connected is delivered, as
    [json.dumps] of the message, to the websocket it connected with, also
    when the same client id was already registered with another socket. *)
Theorem connect_then_send
  (WebSocket Message : Type) (dumps : Message -> string)
  (m : ConnectionManager.t WebSocket) (ws : WebSocket) (client_id : string) (msg : Message) :
  ConnectionManager.sent WebSocket
    (ConnectionManager.send_personal_message WebSocket Message dumps msg client_id
       (ConnectionManager.connect WebSocket ws client_id m))
  = app (ConnectionManager.sent WebSocket m) [(ws, dumps msg)].
Proof.
  unfold ConnectionManager.send_personal_message, ConnectionManager.connect. simpl.
  rewrite ManagerLemmas.dict_get_set_same. reflexivity.
Qed.

(** [connect(websocket, client_id)] registers the socket under its id:
    looking the id up afterwards gives the new socket, every other id
    still gives what it gave before, and the registration order is kept
    (a new client id goes last, a reconnecting id keeps its place, only
    its socket being replaced). *)
Theorem connect_registration_order
  (WebSocket : Type) (m : ConnectionManager.t WebSocket) (ws : WebSocket) (client_id : string) :
  ConnectionManager.dict_get WebSocket
    (ConnectionManager.active_connections WebSocket
       (ConnectionManager.connect WebSocket ws client_id m)) client_id = Some ws /\
  (forall k, k <> client_id ->
     ConnectionManager.dict_get WebSocket
       (ConnectionManager.active_connections WebSocket
          (ConnectionManager.connect WebSocket ws client_id m)) k
     = ConnectionManager.dict_get WebSocket
         (ConnectionManager.active_connections WebSocket m) k) /\
  map fst (ConnectionManager.active_connections WebSocket
             (ConnectionManager.connect WebSocket ws client_id m))
  = if In_dec String.string_dec client_id
         (map fst (ConnectionManager.active_connections WebSocket m))
    then map fst (ConnectionManager.active_connections WebSocket m)
    else app (map fst (ConnectionManager.active_connections WebSocket m)) [client_id].
Proof.
  unfold ConnectionManager.connect. simpl. split; [|split].
  - apply ManagerLemmas.dict_get_set_same.
  - intros k Hk. now apply ManagerLemmas.dict_get_set_other.
  - apply ManagerLemmas.dict_set_keys.
Qed.

(** Once a client has disconnected, nothing more is delivered to it:
    [send_personal_message] for its id is a no-op (the client ids being
    distinct, as in the Python dict). *)
Theorem disconnect_then_send
  (WebSocket Message : Type) (dumps : Message -> string)
  (m : ConnectionManager.t WebSocket) (client_id : string) (msg : Message)
  (H : NoDup (map fst (ConnectionManager.active_connections WebSocket m))) :
  ConnectionManager.send_personal_message WebSocket Message dumps msg client_id
    (ConnectionManager.disconnect WebSocket client_id m)
  = ConnectionManager.disconnect WebSocket client_id m.
Proof.
  unfold ConnectionManager.disconnect.
  destruct (ConnectionManager.dict_get _ _ _) eqn:E.
  - unfold ConnectionManager.send_personal_message. simpl.
    rewrite ManagerLemmas.dict_get_del_nodup by exact H. reflexivity.
  - unfold ConnectionManager.send_personal_message. now rewrite E.
Qed.

Lemma disconnect_then_send_witness :
  NoDup (map fst (ConnectionManager.active_connections nat
                    (ConnectionManager.mkManager nat [("a", 1%nat); ("b", 2%nat)] []))) /\
  ConnectionManager.send_personal_message nat string (fun s => s) "hello" "a"
    (ConnectionManager.disconnect nat "a"
       (ConnectionManager.mkManager nat [("a", 1%nat); ("b", 2%nat)] []))
  = ConnectionManager.mkManager nat [("b", 2%nat)] [].
Proof.
  assert (H : NoDup (map fst (ConnectionManager.active_connections nat
                (ConnectionManager.mkManager nat [("a", 1%nat); ("b", 2%nat)] []))))
    by (repeat constructor; simpl; intuition discriminate).
  split; [exact H|].
  exact (disconnect_then_send nat string (fun s => s) _ "a" "hello" H).
Defined.


Module NarrationLemmas2.
Import Narration NarrationObs.

Lemma nth_error_set_worker (i j : nat) (w : worker) (ws : list worker) :
  (i < length ws)%nat ->
  nth_error (set_worker i w ws) j = if Nat.eqb i j then Some w else nth_error ws j.
Proof.
  intros Hi. unfold set_worker.
  assert (Hf : length (firstn i ws) = i) by (rewrite length_firstn; lia).
  destruct (Nat.eqb_spec i j) as [<-|Hne].
  - rewrite nth_error_app2 by lia. rewrite Hf, Nat.sub_diag. reflexivity.
  - destruct (Nat.lt_ge_cases j i) as [Hlt|Hge].
    + rewrite nth_error_app1 by lia. rewrite nth_error_firstn.
      destruct (Nat.ltb_spec j i); [reflexivity | lia].
    + rewrite nth_error_app2 by lia. rewrite Hf.
      destruct (j - i)%nat as [|k] eqn:E; [lia|]. cbn [nth_error].
      rewrite nth_error_skipn. f_equal. lia.
Qed.

Lemma plays_app (i : nat) (a b : list dev_op) :
  plays i (app a b) = app (plays i a) (plays i b).
Proof. unfold plays. apply flat_map_app. Qed.

Lemma plays_none (i : nat) (log : list dev_op) :
  (forall ch, ~ In (DevPlay i ch) log) -> plays i log = [].
Proof.
  induction log as [|o log IH]; intros H; [reflexivity|].
  unfold plays in *. simpl. rewrite IH by (intros ch Hin; apply (H ch); now right).
  destruct o as [j ch|]; [|reflexivity].
  destruct (Nat.eqb_spec j i); [subst; exfalso; apply (H ch); now left | reflexivity].
Qed.

Lemma plays_dev_stop (i : nat) (log : list dev_op) :
  plays i (app log [DevStop]) = plays i log.
Proof. rewrite plays_app. apply app_nil_r. Qed.

Lemma nth_error_lt (A : Type) (l : list A) (i : nat) (x : A) :
  nth_error l i = Some x -> (i < length l)%nat.
Proof. intros Hn. apply nth_error_Some. rewrite Hn. discriminate. Qed.

Section Inv.
Variable synth : string -> list nat.

Lemma thread_ok_done (t : string) (p : pc) (played : list nat) :
  thread_ok synth t p played -> thread_ok synth t Done played.
Proof.
  destruct p; simpl; intros H;
    first [ exact H | subst; exists (synth t); reflexivity | eexists; exact H ].
Qed.

Lemma plays_inv_update (ws : list worker) (log extra : list dev_op)
  (i : nat) (t : string) (p p' : pc) :
  plays_inv synth ws log -> nth_error ws i = Some (mkWorker t p) ->
  (forall j ch, In (DevPlay j ch) extra -> j = i) ->
  thread_ok synth t p' (plays i (app log extra)) ->
  plays_inv synth (set_worker i (mkWorker t p') ws) (app log extra).
Proof.
  intros [Hb Hw] Hn He Hok.
  pose proof (nth_error_lt _ _ _ _ Hn) as Hi.
  split.
  - intros j ch Hin. rewrite NarrationLemmas.set_worker_length by exact Hi.
    apply in_app_or in Hin as [Hin|Hin]; [exact (Hb j ch Hin)|].
    rewrite (He j ch Hin). exact Hi.
  - intros j w Hj. rewrite nth_error_set_worker in Hj by exact Hi.
    destruct (Nat.eqb_spec i j) as [<-|Hne].
    + injection Hj as <-. exact Hok.
    + rewrite plays_app, (plays_none j extra), app_nil_r.
      * exact (Hw j w Hj).
      * intros ch Hin. apply Hne. symmetry. exact (He j ch Hin).
Qed.

(** A step that leaves the device alone. *)
Lemma plays_inv_keep (ws : list worker) (log : list dev_op)
  (i : nat) (t : string) (p p' : pc) :
  plays_inv synth ws log -> nth_error ws i = Some (mkWorker t p) ->
  (thread_ok synth t p (plays i log) -> thread_ok synth t p' (plays i log)) ->
  plays_inv synth (set_worker i (mkWorker t p') ws) log.
Proof.
  intros H Hn Hok. rewrite <- (app_nil_r log).
  apply (plays_inv_update _ _ _ i t p); [exact H | exact Hn | simpl; tauto |].
  rewrite app_nil_r. apply Hok. exact (proj2 H i _ Hn).
Qed.

Lemma plays_inv_worker_step (i : nat) (g g' : G) :
  worker_step synth i g g' -> plays_inv synth (workers g) (dev_log g) ->
  plays_inv synth (workers g') (dev_log g').
Proof.
  intros Hs Hinv. destruct Hs; unfold with_worker; simpl.
  (* [sd.play]: the chunk is the next one of the thread's own text *)
  7: { apply (plays_inv_update _ _ _ i t (Play ch rest)); [exact Hinv | exact H | |].
       - intros j c [E|[]]. now injection E.
       - simpl. rewrite plays_app. unfold plays at 2. simpl.
         rewrite Nat.eqb_refl, <- app_assoc. exact (proj2 Hinv i _ H). }
  (* [sd.stop()] *)
  11: { apply (plays_inv_update _ _ _ i t (Halt rest)); [exact Hinv | exact H | |].
        - intros j c [E|[]]. discriminate.
        - rewrite plays_dev_stop. exact (proj2 Hinv i _ H). }
  all: eapply plays_inv_keep; [exact Hinv | eassumption |].
  all: first [ apply thread_ok_done | simpl; intros ->; reflexivity | exact (fun H => H) ].
Qed.

Lemma plays_inv_bg_steps (g g' : G) :
  bg_steps synth g g' -> plays_inv synth (workers g) (dev_log g) ->
  plays_inv synth (workers g') (dev_log g').
Proof.
  induction 1 as [g|g1 g2 g3 H12 _ IH]; intros H; [exact H|].
  apply IH. destruct H12 as [i g g' Hw|g x _].
  - exact (plays_inv_worker_step i g g' Hw H).
  - exact H.
Qed.

Lemma plays_inv_stop_audio (g g' : G) :
  stop_audio synth g g' -> plays_inv synth (workers g) (dev_log g) ->
  plays_inv synth (workers g') (dev_log g').
Proof.
  intros [g0 g1 g2 H1 H2] H. simpl.
  apply (plays_inv_bg_steps _ _ H2).
  destruct (plays_inv_bg_steps _ _ H1 H) as [Hb Hw]. simpl. split.
  - intros i ch Hin. apply in_app_or in Hin as [Hin|[E|[]]]; [exact (Hb i ch Hin)|discriminate].
  - intros i w Hn. rewrite plays_dev_stop. exact (Hw i w Hn).
Qed.

Lemma plays_inv_new_thread (g : G) (text : string) (p : pc) :
  plays_inv synth (workers g) (dev_log g) -> thread_ok synth text p [] ->
  plays_inv synth (workers (new_thread text p g)) (dev_log (new_thread text p g)).
Proof.
  intros [Hb Hw] Hp. simpl. split.
  - intros i ch Hin. rewrite length_app. simpl. pose proof (Hb i ch Hin). lia.
  - intros i w Hn. destruct (Nat.lt_ge_cases i (length (workers g))) as [Hlt|Hge].
    + rewrite nth_error_app1 in Hn by exact Hlt. exact (Hw i w Hn).
    + rewrite nth_error_app2 in Hn by exact Hge.
      destruct (i - length (workers g))%nat as [|k] eqn:E; [|destruct k; discriminate].
      injection Hn as <-. simpl. rewrite plays_none; [exact Hp|].
      intros ch Hin. pose proof (Hb i ch Hin). lia.
Qed.

Lemma plays_inv_sys_step (g g' : G) :
  sys_step synth g g' -> plays_inv synth (workers g) (dev_log g) ->
  plays_inv synth (workers g') (dev_log g').
Proof.
  intros Hs H. destruct Hs as [g g' Hbg|text g g' r Hsp|g g' Hst].
  - apply (plays_inv_bg_steps g g'); [|exact H]. econstructor; [exact Hbg | constructor].
  - destruct Hsp as [g _|g g1 g2 _ Hst Hbg|g g1 g2 _ Hst Hbg]; [exact H| |];
      apply plays_inv_new_thread;
      try (apply (plays_inv_bg_steps _ _ Hbg); exact (plays_inv_stop_audio g g1 Hst H)).
    + reflexivity.
    + exists (synth text). reflexivity.
  - exact (plays_inv_stop_audio g g' Hst H).
Qed.

Lemma plays_inv_reachable (g : G) :
  reachable synth g -> plays_inv synth (workers g) (dev_log g).
Proof.
  induction 1 as [p|g g' _ IH Hs].
  - split; simpl; [tauto | intros i w Hn; destruct i; discriminate].
  - exact (plays_inv_sys_step g g' Hs IH).
Qed.

(** While the stop flag stays set. *)

Lemma flagged_init (g0 : G) : stop_event g0 = true -> flagged_inv g0 g0.
Proof.
  intros Hf. split; [exact Hf|]. exists []. split; [now rewrite app_nil_r|].
  intros i. split; [intros w Hw _; split; [exact Hw | reflexivity] | left; reflexivity].
Qed.

Lemma flagged_update (g0 g : G) (i : nat) (t : string) (p p' : pc)
  (is_pl : bool) (str : option (nat * nat)) (extra log : list dev_op) :
  flagged_inv g0 g -> nth_error (workers g) i = Some (mkWorker t p) ->
  at_play p' = false ->
  (extra = [] \/ extra = [DevStop] \/
   exists ch rest, p = Play ch rest /\ extra = [DevPlay i ch]) ->
  log = app (dev_log g) extra ->
  flagged_inv g0 (with_worker g i (mkWorker t p') is_pl str log).
Proof.
  intros (Hf & ops & Hd & Hinv) Hn Hp' Hx ->.
  pose proof (nth_error_lt _ _ _ _ Hn) as Hi.
  unfold flagged_inv, with_worker. simpl. split; [exact Hf|].
  exists (app ops extra). split; [rewrite Hd, app_assoc; reflexivity|].
  intros j. rewrite nth_error_set_worker by exact Hi. rewrite plays_app.
  destruct (Nat.eqb_spec i j) as [<-|Hne].
  - destruct (Hinv i) as [HA HB]. split.
    + intros w Hw Hpw. injection Hw as <-. simpl in Hpw. congruence.
    + destruct Hx as [->|[->|(ch & rest & -> & ->)]].
      * rewrite (plays_none i []), app_nil_r; [exact HB | intros ch []].
      * rewrite (plays_none i [DevStop]), app_nil_r; [exact HB|]. intros ch [E|[]]. discriminate.
      * destruct (HA _ Hn eq_refl) as [H0 Hpl]. right. exists t, ch, rest.
        split; [exact H0|]. rewrite Hpl. simpl. rewrite Nat.eqb_refl. reflexivity.
  - assert (He : plays j extra = []).
    { apply plays_none. intros ch Hin.
      destruct Hx as [->|[->|(c & rest & _ & ->)]]; simpl in Hin; [tauto | |].
      - destruct Hin as [E|[]]. discriminate.
      - destruct Hin as [E|[]]. injection E as <- _. exact (Hne eq_refl). }
    rewrite He, app_nil_r. exact (Hinv j).
Qed.

Lemma flagged_worker_step (g0 g g' : G) (i : nat) :
  flagged_inv g0 g -> worker_step synth i g g' -> flagged_inv g0 g'.
Proof.
  intros H Hs. pose proof H as [Hf _]. destruct Hs;
    first
    [ congruence
    | eapply flagged_update;
        [exact H | eassumption | reflexivity | left; reflexivity | now rewrite app_nil_r]
    | eapply flagged_update;
        [exact H | eassumption | reflexivity | right; left; reflexivity | reflexivity]
    | eapply flagged_update;
        [exact H | eassumption | reflexivity
        | right; right; do 2 eexists; split; reflexivity | reflexivity] ].
Qed.

Lemma flagged_bg_steps (g0 g g' : G) :
  bg_steps synth g g' -> flagged_inv g0 g -> flagged_inv g0 g'.
Proof.
  induction 1 as [g|g1 g2 g3 H12 _ IH]; intros H; [exact H|].
  apply IH. destruct H12 as [i g g' Hw|g x _].
  - exact (flagged_worker_step g0 g g' i H Hw).
  - exact H.
Qed.

Lemma flagged_dev_stop (g0 g : G) : flagged_inv g0 g -> flagged_inv g0 (dev_stop g).
Proof.
  intros (Hf & ops & Hd & Hinv). split; [exact Hf|].
  exists (app ops [DevStop]). simpl. split; [rewrite Hd, app_assoc; reflexivity|].
  intros i. rewrite plays_dev_stop. exact (Hinv i).
Qed.

End Inv.
End NarrationLemmas2.

(** [stop_audio()] does not stop a thread that has already passed its stop
    check: between the call and the return the device receives [sd.stop()]
    and, from each playback thread, at most one chunk, the one that thread
    had already cleared [if _stop_event.is_set()] for when [stop_audio] was
    called; nothing else is played. The flag is still set and
    [_is_playing] is false when it returns. *)
Theorem stop_audio_bounded (synth : string -> list nat) (g g' : Narration.G)
  (H : Narration.stop_audio synth g g') :
  Narration.stop_event g' = true /\ Narration.is_playing g' = false /\
  exists ops, Narration.dev_log g' = app (Narration.dev_log g) ops /\
    In Narration.DevStop ops /\
    forall i, NarrationObs.plays i ops = [] \/
      exists t ch rest,
        nth_error (Narration.workers g) i = Some (Narration.mkWorker t (Narration.Play ch rest)) /\
        NarrationObs.plays i ops = [ch].
Proof.
  destruct H as [g g1 g2 H1 H2].
  pose proof (NarrationLemmas2.flagged_bg_steps synth _ _ _ H1
                (NarrationLemmas2.flagged_init (Narration.set_flag g) eq_refl)) as F1.
  destruct (NarrationLemmas2.flagged_bg_steps synth _ _ _ H2
              (NarrationLemmas2.flagged_dev_stop _ _ F1)) as (Hf & ops & Hd & Hinv).
  destruct (NarrationLemmas.bg_steps_log synth _ _ H1) as (l1 & Hd1).
  destruct (NarrationLemmas.bg_steps_log synth _ _ H2) as (l2 & Hd2).
  simpl in Hd, Hd1, Hd2.
  split; [exact Hf|]. split; [reflexivity|]. exists ops. split; [exact Hd|]. split.
  - rewrite Hd2, Hd1, <- !app_assoc in Hd. apply app_inv_head in Hd.
    rewrite <- Hd. apply in_or_app. right. left. reflexivity.
  - intros i. exact (proj2 (Hinv i)).
Qed.

Lemma stop_audio_bounded_witness :
  Narration.stop_audio two_chunks playing_A playing_A_stopped /\
  Narration.stop_event playing_A_stopped = true /\
  Narration.is_playing playing_A_stopped = false /\
  exists ops, Narration.dev_log playing_A_stopped = app (Narration.dev_log playing_A) ops /\
    In Narration.DevStop ops /\
    forall i, NarrationObs.plays i ops = [] \/
      exists t ch rest,
        nth_error (Narration.workers playing_A) i
        = Some (Narration.mkWorker t (Narration.Play ch rest)) /\
        NarrationObs.plays i ops = [ch].
Proof.
  set (g1 := Narration.with_worker (Narration.set_flag playing_A) 0
               (Narration.mkWorker "A" (Narration.Wait [8]%nat))
               (Narration.is_playing (Narration.set_flag playing_A)) (Some (0, 7)%nat)
               (app (Narration.dev_log (Narration.set_flag playing_A)) [Narration.DevPlay 0 7])).
  assert (Hw : Narration.worker_step two_chunks 0 (Narration.set_flag playing_A) g1)
    by exact (Narration.ws_play two_chunks 0 (Narration.set_flag playing_A) "A" 7 [8]%nat eq_refl).
  assert (H : Narration.stop_audio two_chunks playing_A playing_A_stopped)
    by exact (Narration.stop_audio_run two_chunks playing_A g1 (Narration.dev_stop g1)
                (Narration.bg_trans _ _ _ _ (Narration.bg_worker _ 0 _ _ Hw) (Narration.bg_refl _ _))
                (Narration.bg_refl _ _)).
  split; [exact H|]. exact (stop_audio_bounded two_chunks _ _ H).
Defined.

(** In every reachable state of the narration controller, each playback
    thread has sent to the device exactly a prefix of the chunks synthesised
    for its own text, in order: no chunk is skipped, repeated or taken from
    another thread's text (threads may overlap, see C3, but never mix up
    their own audio). *)
Theorem playback_plays_prefix (synth : string -> list nat) (g : Narration.G)
  (i : nat) (w : Narration.worker)
  (Hr : Narration.reachable synth g)
  (Hn : nth_error (Narration.workers g) i = Some w) :
  exists rest, app (NarrationObs.plays i (Narration.dev_log g)) rest = synth (Narration.w_text w).
Proof.
  destruct (NarrationLemmas2.plays_inv_reachable synth g Hr) as [_ Hw].
  pose proof (Hw i w Hn) as Hok. unfold NarrationObs.thread_ok in Hok.
  destruct (Narration.w_pc w);
    first [ exact Hok | rewrite Hok; eexists; reflexivity | eexists; exact Hok ].
Qed.

Lemma playback_plays_prefix_witness :
  Narration.reachable two_chunks speak_A_then_B /\
  nth_error (Narration.workers speak_A_then_B) 0
  = Some (Narration.mkWorker "A" (Narration.Wait [8]%nat)) /\
  exists rest, app (NarrationObs.plays 0 (Narration.dev_log speak_A_then_B)) rest
               = two_chunks "A".
Proof.
  split; [exact NarrationRun.reach_speak_A_then_B|]. split; [reflexivity|].
  exact (playback_plays_prefix two_chunks speak_A_then_B 0 _
           NarrationRun.reach_speak_A_then_B eq_refl).
Defined.

Module FeedbackLemmas.

(** Every field of [feedback_system_prompt] is one of the three keywords
    [update_context] passes, so the [format] call never raises. *)
Lemma format_feedback_ok (pd ch fc : string) :
  exists si, format_segments [("problem", pd); ("chat_history", ch); ("final_code", fc)]
               feedback_system_prompt = Ok si.
Proof. eexists. unfold feedback_system_prompt. cbn. reflexivity. Qed.

End FeedbackLemmas.

(** [FeedbackAgent.update_context] never fails: it stores the problem (or
    "No problem provided"), the chat history (or "No chat history provided."
    when empty) and the code (or "No code provided" when empty), and builds
    the system instruction from them. The next [generate_feedback_json]
    makes exactly one model call, with that system instruction, and returns
    the model's JSON or "An error occurred while generating feedback: "
    followed by the error. *)
Theorem feedback_update_then_generate
  (generate_content : string -> string -> result string)
  (fa : FeedbackAgent.t) (description : option string) (chat_history final_code : string) :
  let pd := match description with Some d => d | None => "No problem provided" end in
  let ch := if Py.truthy chat_history then chat_history else "No chat history provided." in
  let fc := if Py.truthy final_code then final_code else "No code provided" in
  exists si fa1,
    format_segments [("problem", pd); ("chat_history", ch); ("final_code", fc)]
      feedback_system_prompt = Ok si /\
    FeedbackAgent.update_context fa description chat_history final_code = Ok fa1 /\
    FeedbackAgent.problem_description fa1 = pd /\
    FeedbackAgent.chat_history_context fa1 = ch /\
    FeedbackAgent.final_code fa1 = fc /\
    FeedbackAgent.system_instruction fa1 = Some si /\
    let '(out, fa2) := FeedbackAgent.generate_feedback_json generate_content fa1 in
    FeedbackAgent.model_calls fa2
    = app (FeedbackAgent.model_calls fa) [FeedbackAgent.feedback_request] /\
    out = match generate_content si FeedbackAgent.feedback_request with
          | Ok json => json
          | Exn e => "An error occurred while generating feedback: " ++ e
          end.
Proof.
  cbv zeta.
  destruct (FeedbackLemmas.format_feedback_ok
              (match description with Some d => d | None => "No problem provided" end)
              (if Py.truthy chat_history then chat_history else "No chat history provided.")
              (if Py.truthy final_code then final_code else "No code provided")) as [si Hsi].
  exists si. eexists. split; [exact Hsi|].
  unfold FeedbackAgent.update_context. rewrite Hsi.
  split; [reflexivity|]. simpl.
  repeat split; try reflexivity.
  unfold FeedbackAgent.generate_feedback_json. simpl.
  destruct (generate_content si FeedbackAgent.feedback_request); split; reflexivity.
Qed.

(** [POST /end] stops the narration, hands the feedback agent the rendering
    of the WHOLE stored transcript (not only the last five turns the
    interviewer model is shown), the agent's problem description and its last
    code snapshot, makes one feedback model call, and answers with
    [json.loads] of what [generate_feedback_json] returned, any failure
    becoming "Failed to generate feedback: " followed by the error. *)
Theorem end_interview_full_transcript
  (generate_content : string -> string -> result string)
  (Feedback : Type) (json_loads : string -> result Feedback)
  (ia : InterviewAgent.t) (fa : FeedbackAgent.t) :
  let ch := get_formatted_history (InterviewAgent.history ia) in
  let '(calls, resp, fa2) :=
    InterviewApi.end_interview generate_content Feedback json_loads ia fa in
  exists fa1,
    FeedbackAgent.update_context fa (Some (InterviewAgent.problem_description ia))
      ch (InterviewAgent.user_code ia) = Ok fa1 /\
    FeedbackAgent.chat_history_context fa1
    = (if Py.truthy ch then ch else "No chat history provided.") /\
    FeedbackAgent.problem_description fa1 = InterviewAgent.problem_description ia /\
    FeedbackAgent.final_code fa1
    = (if Py.truthy (InterviewAgent.user_code ia)
       then InterviewAgent.user_code ia else "No code provided") /\
    calls = [Coordinator.StopAudio] /\
    FeedbackAgent.model_calls fa2
    = app (FeedbackAgent.model_calls fa) [FeedbackAgent.feedback_request] /\
    resp = match json_loads (fst (FeedbackAgent.generate_feedback_json generate_content fa1)) with
           | Ok f => Ok f
           | Exn e => Exn ("Failed to generate feedback: " ++ e)
           end.
Proof.
  cbv zeta.
  set (ch := get_formatted_history (InterviewAgent.history ia)).
  destruct (FeedbackLemmas.format_feedback_ok (InterviewAgent.problem_description ia)
              (if Py.truthy ch then ch else "No chat history provided.")
              (if Py.truthy (InterviewAgent.user_code ia)
               then InterviewAgent.user_code ia else "No code provided")) as [si Hsi].
  unfold InterviewApi.end_interview, FeedbackAgent.update_context. fold ch.
  rewrite Hsi.
  set (fa1 := FeedbackAgent.mkFeedbackAgent
                (if Py.truthy ch then ch else "No chat history provided.")
                (InterviewAgent.problem_description ia)
                (if Py.truthy (InterviewAgent.user_code ia)
                 then InterviewAgent.user_code ia else "No code provided")
                (Some si) (Some si) (FeedbackAgent.model_calls fa)).
  assert (Hm : FeedbackAgent.model_calls
                 (snd (FeedbackAgent.generate_feedback_json generate_content fa1))
               = app (FeedbackAgent.model_calls fa) [FeedbackAgent.feedback_request])
    by (unfold FeedbackAgent.generate_feedback_json; simpl;
        destruct (generate_content _ _); reflexivity).
  destruct (FeedbackAgent.generate_feedback_json generate_content fa1) as [out fa2] eqn:Eg.
  simpl in Hm |- *.
  destruct (json_loads out) eqn:Ej; exists fa1; rewrite Eg; simpl; rewrite Ej;
    repeat split; try reflexivity; exact Hm.
Qed.
